(** * Multi-agent pipeline scripts: shallow embedding and properties

    Two scripts are embedded:
    - [autogen/autogen_interview_platform.py]: a five-phase workflow that
      sends one chat-completion request per phase and threads every reply
      into later prompts (module [Autogen]);
    - [crewai/crewai_demo.py]: tool functions, the hotel agent and task, and
      the command-line block of the travel planner (module [Crewai]), and
      its agents, tasks, crew and [main] (module [CrewaiMain]).

    The retry loop of the [openai] client that the first script builds is
    not code of the scripts; module [Openai] models it.

    Python values are modelled as follows: [str] is [string] (the bytes of
    the text), a [dict] from strings to strings is a [gmap string string]
    held in a heap of objects so that aliasing is visible, exceptions are an
    inductive type, and a function with effects is a state transformer that
    returns either a value or a raised exception. *)

From stdpp Require Import gmap strings list.
From Stdlib Require Import Ascii.
From Stdlib Require QArith_base.
From Stdlib Require DecimalString.

(** ** Python runtime *)

Module Py.

(** Finite [float] configuration values, kept as rationals. *)
Abbreviation float := QArith_base.Q.

(** The newline character, [chr(10)]. *)
Definition nl : string := "
".

(** [s * n] on strings. *)
Fixpoint str_mul (s : string) (n : nat) : string :=
  match n with
  | O => ""
  | S n' => s +:+ str_mul s n'
  end.

(** [str.lower]: the letters [A]..[Z] go to [a]..[z].  Bytes outside ASCII
    are left alone; Python also lowers letters outside ASCII, which no
    comparison against an ASCII word without the letter [k] can observe. *)
Definition lower_ascii (c : ascii) : ascii :=
  let n := nat_of_ascii c in
  if Nat.leb 65 n && Nat.leb n 90 then ascii_of_nat (n + 32) else c.

Fixpoint lower (s : string) : string :=
  match s with
  | EmptyString => EmptyString
  | String c s' => String (lower_ascii c) (lower s')
  end.

(** Failure classes of the remote completion API. *)
Inductive api_error : Type :=
  | TransientError
  | FatalError.

Inductive exn : Type :=
  | KeyError (key : string)
  | IndexError
  | ValueError (arg : string)
  | OSError (path : string)
  | APIError (e : api_error).

Inductive result (A : Type) : Type :=
  | Ok (a : A)
  | Raise (e : exn).
Arguments Ok {A} a.
Arguments Raise {A} e.

(** Computations over a state [S] that return or raise; the state reached
    when an exception is raised is kept, as Python keeps every mutation made
    before the [raise]. *)
Definition M (S A : Type) : Type := S -> result A * S.

#[export] Instance M_ret (S : Type) : MRet (M S) :=
  fun A a s => (Ok a, s).

#[export] Instance M_bind (S : Type) : MBind (M S) :=
  fun A B k m s =>
    match m s with
    | (Ok a, s') => k a s'
    | (Raise e, s') => (Raise e, s')
    end.

Definition raise {S A : Type} (e : exn) : M S A :=
  fun s => (Raise e, s).

(** [try: m  except Exception as e: h e]. *)
Definition try_except {S A : Type} (m : M S A) (h : exn -> M S A) : M S A :=
  fun s =>
    match m s with
    | (Ok a, s') => (Ok a, s')
    | (Raise e, s') => h e s'
    end.

(** [d[k]] on a dict value and [l[i]] on a list value. *)
Definition getitem {S : Type} (d : gmap string string) (k : string) : M S string :=
  match d !! k with
  | Some v => mret v
  | None => raise (KeyError k)
  end.

Definition list_getitem {S A : Type} (l : list A) (i : nat) : M S A :=
  match l !! i with
  | Some v => mret v
  | None => raise IndexError
  end.

(** [d.get(k, dflt)]. *)
Definition dict_get (d : gmap string string) (k dflt : string) : string :=
  default dflt (d !! k).

(** [os.path.join(a, b)] for a relative [b]. *)
Fixpoint ends_with_slash (a : string) : bool :=
  match a with
  | EmptyString => false
  | String c EmptyString => bool_decide (c = "/"%char)
  | String _ a' => ends_with_slash a'
  end.

Definition path_join (a b : string) : string :=
  if bool_decide (a = "") then b
  else if ends_with_slash a then a +:+ b
  else a +:+ "/" +:+ b.

End Py.

Import Py.

(** ** autogen/autogen_interview_platform.py *)

Module Autogen.

(** *** Agent definitions: the system messages *)

Definition research_system_message : string :=
  "You are an expert market research analyst specializing in AI-powered
        interview platforms and recruitment technology. Your task is to:

        1. Research and identify 3-4 major competitors in the AI interview space
           (e.g., HireVue, Pymetrics, Codility, etc.)
        2. Summarize their key features and market positioning
        3. Identify current trends in AI-powered recruiting
        4. Note any unmet market needs

        Provide a comprehensive competitive landscape analysis. Be specific with competitor names,
        features, and market gaps you identify.

        Format your response as a structured analysis with clear sections.".

Definition analysis_system_message : string :=
  "You are a strategic product analyst with expertise in SaaS product
        development. Based on market research findings, your task is to:

        1. Analyze the competitive landscape provided
        2. Identify 3 key market gaps or opportunities
        3. For each opportunity, explain:
           - What the gap is
           - Why it matters
           - How it can be addressed
           - Potential market size/impact

        Focus on opportunities that are:
        - Underserved by competitors
        - Valuable to customers
        - Technically feasible

        Provide structured analysis with numbered opportunities.".

Definition blueprint_system_message : string :=
  "You are an experienced product designer and UX strategist.
        Based on the market analysis and identified opportunities, create a product blueprint:

        1. Core Features (MVP):
           - List 5-7 essential features
           - Include feature descriptions
           - Explain how each addresses identified opportunities

        2. User Journey:
           - Map the main user flow for a hiring manager
           - Include key touchpoints
           - Describe the interview scheduling and analysis flow

        3. Differentiation:
           - Highlight how this product stands out
           - Key competitive advantages

        4. Target User Personas:
           - Hiring managers
           - Recruiters
           - Candidates

        Format as a comprehensive product blueprint document.".

Definition technical_system_message : string :=
  "You are a senior AI engineer and technical architect specializing 
        in machine learning systems and scalable software architecture. Your task is to:

        1. Technical Feasibility Assessment:
           - Evaluate which AI/ML features are technically feasible
           - Identify potential technical challenges and limitations
           - Suggest alternative technical approaches if needed

        2. Implementation Requirements:
           - Estimate development complexity and timelines
           - Identify required technologies and frameworks
           - Suggest optimal tech stack for the proposed features

        3. Scalability & Performance:
           - Assess scalability requirements for multi-user platform
           - Identify potential performance bottlenecks
           - Recommend architecture patterns for reliability

        4. Data & Infrastructure:
           - Analyze data requirements for AI models
           - Suggest infrastructure needs (cloud, storage, compute)
           - Identify data privacy and security considerations

        Provide a structured technical assessment with clear recommendations.".

Definition reviewer_system_message : string :=
  "You are an experienced product executive and business strategist.
        Your role is to review the product blueprint and provide strategic recommendations:

        1. Feasibility Assessment:
           - Is the feature set realistic to build?
           - What might be missing?

        2. Market Viability:
           - Will this product succeed?
           - Any market risks?

        3. Business Model Suggestions:
           - Pricing strategy recommendations
           - Revenue streams

        4. Implementation Roadmap:
           - Phased launch approach
           - Key milestones

        5. Next Steps & Action Items:
           - Top 5 priorities for next phase
           - Resource requirements

        Provide constructive feedback and actionable recommendations.".

(** *** Prompt rendering: the user message of each phase *)

Definition initial_message : string :=
  "Please conduct a comprehensive market analysis for AI-powered
        interview platforms. Focus on:

        1. Current market leaders and their key features
        2. Market trends and innovations
        3. Unmet needs and gaps

        Provide your analysis in a structured format.".

Definition analysis_message (research_output : string) : string :=
  "Based on the following market research, identify 3 key
        opportunities for an AI-powered interview platform:

        RESEARCH FINDINGS:
        "
  +:+ research_output
  +:+ "

        Please provide detailed analysis of market gaps and opportunities.".

Definition blueprint_message (research_output analysis_output : string) : string :=
  "Based on the market research and opportunity analysis below,
        create a comprehensive product blueprint for an AI-powered interview platform:

        MARKET RESEARCH:
        "
  +:+ research_output
  +:+ "

        OPPORTUNITY ANALYSIS:
        "
  +:+ analysis_output
  +:+ "

        Please create a detailed product blueprint with features, user journey, and differentiation.".

Definition technical_message (blueprint_output : string) : string :=
  "Please conduct a technical feasibility assessment of the 
        following product blueprint for an AI-powered interview platform:

        PRODUCT BLUEPRINT:
        "
  +:+ blueprint_output
  +:+ "

        Assess the technical feasibility, implementation requirements, and provide
        recommendations for the technology stack and architecture.".

Definition review_message (blueprint_output technical_output : string) : string :=
  "Please review the following product blueprint and technical assessment,
        then provide strategic recommendations, feasibility assessment, and next steps:

        PRODUCT BLUEPRINT:
        "
  +:+ blueprint_output
  +:+ "

        TECHNICAL ASSESSMENT:
        "
  +:+ technical_output
  +:+ "

        Provide comprehensive review with actionable recommendations considering both
        business strategy and technical feasibility.".

(** *** The remote model *)

Record message : Type := Message { role : string; content : string }.

Record request : Type := Request {
  model : string;
  temperature : float;
  max_tokens : Z;
  messages : list message
}.

Inductive reply : Type :=
  | Completion (text : string)
  | Failure (e : api_error).

(** What [client.chat.completions.create] answers to a request, given how
    many requests were sent before it.  The response is taken to carry one
    choice with textual content, as the [-> str] annotations of the phases
    assume. *)
Definition client : Type := nat -> request -> reply.

(** *** Objects and the world *)

Abbreviation loc := positive.
Abbreviation dict := (gmap string string).

Inductive stage : Type := Research | Analysis | Blueprint | Technical | Review.

#[export] Instance stage_eq_dec : EqDecision stage.
Proof. solve_decision. Defined.

(** The key under which a phase stores its output in [self.outputs]. *)
Definition stage_key (s : stage) : string :=
  match s with
  | Research => "research"
  | Analysis => "analysis"
  | Blueprint => "blueprint"
  | Technical => "technical"
  | Review => "review"
  end.

Definition stage_index (s : stage) : nat :=
  match s with
  | Research => 0
  | Analysis => 1
  | Blueprint => 2
  | Technical => 3
  | Review => 4
  end.

Definition stages : list stage := [Research; Analysis; Blueprint; Technical; Review].

(** Steps of a phase, logged with the content that the running workflow's
    [outputs] dict has at that moment.  The log is an observer added to the
    embedding; the source keeps no such record. *)
Inductive event : Type :=
  | EvRender (s : stage) (inputs : list string) (prompt : string)
  | EvCall (s : stage) (r : request)
  | EvReply (s : stage) (text : string)
  | EvStore (s : stage) (text : string).

Record world : Type := World {
  heap : gmap loc dict;
  stdout : list string;
  files : gmap string string;
  requests : list request;
  trace : list (event * dict)
}.

Record InterviewPlatformAgents : Type := {
  config_list : list dict;
  agents : loc;
  conversation_history : list string;
  agents_client : client;
  agents_model : string
}.

Record InterviewPlatformWorkflow : Type := {
  agents_manager : InterviewPlatformAgents;
  outputs : loc
}.

Record OutputManager : Type := {
  output_dir : string;
  timestamp : string
}.

(** What the script takes from modules that are not part of it: the
    repository's [config.Config], the [openai] package, the clock and the
    file system. *)
Record Env : Type := {
  AGENT_TEMPERATURE : float;
  AGENT_MAX_TOKENS : Z;
  OUTPUT_DIR : string;
  validate_setup : bool;
  get_summary : string;
  get_config_list : list dict;
  OpenAI : string -> string -> client;
  strftime : string -> string;
  str_exn : exn -> string;
  can_open : string -> bool
}.

(** *** Primitive effects *)

Definition read_dict (l : loc) (w : world) : dict := default ∅ (heap w !! l).

Definition set_heap (h : gmap loc dict) (w : world) : world :=
  World h (stdout w) (files w) (requests w) (trace w).

(** [{}]: a new dict object. *)
Definition dict_new : M world loc :=
  fun w =>
    let l := fresh (dom (heap w)) in
    (Ok l, set_heap (<[l := ∅]> (heap w)) w).

(** [d[k]] through a reference. *)
Definition dict_getitem (l : loc) (k : string) : M world string :=
  fun w => getitem (read_dict l w) k w.

(** [d[k] = v] through a reference. *)
Definition dict_setitem (l : loc) (k v : string) : M world unit :=
  fun w => (Ok tt, set_heap (<[l := <[k := v]> (read_dict l w)]> (heap w)) w).

Definition print (s : string) : M world unit :=
  fun w => (Ok tt, World (heap w) (stdout w ++ [s]) (files w) (requests w) (trace w)).

(** [open(path, "w")] and [f.write(s)]. *)
Definition file_open_w (can : string -> bool) (path : string) : M world unit :=
  fun w =>
    if can path
    then (Ok tt, World (heap w) (stdout w) (<[path := ""]> (files w)) (requests w) (trace w))
    else (Raise (OSError path), w).

Definition file_write (path s : string) : M world unit :=
  fun w =>
    (Ok tt, World (heap w) (stdout w)
                  (<[path := default "" (files w !! path) +:+ s]> (files w))
                  (requests w) (trace w)).

(** [client.chat.completions.create(...)] followed by
    [response.choices[0].message.content]. *)
Definition chat_completions_create (c : client) (r : request) : M world string :=
  fun w =>
    let w' := World (heap w) (stdout w) (files w) (requests w ++ [r]) (trace w) in
    match c (length (requests w)) r with
    | Completion text => (Ok text, w')
    | Failure e => (Raise (APIError e), w')
    end.

(** Observer: append an event with the current content of [outputs]. *)
Definition emit (outputs : loc) (ev : event) : M world unit :=
  fun w =>
    (Ok tt, World (heap w) (stdout w) (files w) (requests w)
                  (trace w ++ [(ev, read_dict outputs w)])).

Section Script.

Context (env : Env).

(** *** class InterviewPlatformAgents *)

Definition InterviewPlatformAgents_init (config_list : list dict)
  : M world InterviewPlatformAgents :=
  agents ← dict_new;
  config ← list_getitem config_list 0;
  api_key ← getitem config "api_key";
  api_base ← getitem config "api_base";
  let client := OpenAI env api_key api_base in
  model ← getitem config "model";
  mret {| config_list := config_list;
          agents := agents;
          conversation_history := [];
          agents_client := client;
          agents_model := model |}.

Definition create_research_agent (self : InterviewPlatformAgents) : M world string :=
  let system_message := research_system_message in
  dict_setitem (agents self) "research" system_message;;
  mret system_message.

Definition create_analysis_agent (self : InterviewPlatformAgents) : M world string :=
  let system_message := analysis_system_message in
  dict_setitem (agents self) "analysis" system_message;;
  mret system_message.

Definition create_blueprint_agent (self : InterviewPlatformAgents) : M world string :=
  let system_message := blueprint_system_message in
  dict_setitem (agents self) "blueprint" system_message;;
  mret system_message.

Definition create_technical_agent (self : InterviewPlatformAgents) : M world string :=
  let system_message := technical_system_message in
  dict_setitem (agents self) "technical" system_message;;
  mret system_message.

Definition create_reviewer_agent (self : InterviewPlatformAgents) : M world string :=
  let system_message := reviewer_system_message in
  dict_setitem (agents self) "reviewer" system_message;;
  mret system_message.

(** *** class InterviewPlatformWorkflow *)

Definition InterviewPlatformWorkflow_init (agents_manager : InterviewPlatformAgents)
  : M world InterviewPlatformWorkflow :=
  outputs ← dict_new;
  mret {| agents_manager := agents_manager; outputs := outputs |}.

(** The request every phase builds: the agent's system message first, the
    rendered prompt second. *)
Definition phase_request (self : InterviewPlatformWorkflow)
    (system_message user_message : string) : request :=
  {| model := agents_model (agents_manager self);
     temperature := AGENT_TEMPERATURE env;
     max_tokens := AGENT_MAX_TOKENS env;
     messages := [ Message "system" system_message;
                   Message "user" user_message ] |}.

Definition initiate_research_phase (self : InterviewPlatformWorkflow) : M world string :=
  print (nl +:+ str_mul "=" 80);;
  print "PHASE 1: MARKET RESEARCH";;
  print (str_mul "=" 80);;
  system_message ← dict_getitem (agents (agents_manager self)) "research";
  let initial_message := initial_message in
  emit (outputs self) (EvRender Research [] initial_message);;
  let r := phase_request self system_message initial_message in
  emit (outputs self) (EvCall Research r);;
  research_output ← chat_completions_create (agents_client (agents_manager self)) r;
  emit (outputs self) (EvReply Research research_output);;
  print (nl +:+ "Research Agent Output:");;
  print research_output;;
  dict_setitem (outputs self) "research" research_output;;
  emit (outputs self) (EvStore Research research_output);;
  mret research_output.

Definition conduct_analysis_phase (self : InterviewPlatformWorkflow)
    (research_output : string) : M world string :=
  print (nl +:+ str_mul "=" 80);;
  print "PHASE 2: MARKET GAP ANALYSIS";;
  print (str_mul "=" 80);;
  system_message ← dict_getitem (agents (agents_manager self)) "analysis";
  let analysis_message := analysis_message research_output in
  emit (outputs self) (EvRender Analysis [research_output] analysis_message);;
  let r := phase_request self system_message analysis_message in
  emit (outputs self) (EvCall Analysis r);;
  analysis_output ← chat_completions_create (agents_client (agents_manager self)) r;
  emit (outputs self) (EvReply Analysis analysis_output);;
  print (nl +:+ "Analysis Agent Output:");;
  print analysis_output;;
  dict_setitem (outputs self) "analysis" analysis_output;;
  emit (outputs self) (EvStore Analysis analysis_output);;
  mret analysis_output.

Definition create_blueprint_phase (self : InterviewPlatformWorkflow)
    (research_output analysis_output : string) : M world string :=
  print (nl +:+ str_mul "=" 80);;
  print "PHASE 3: PRODUCT BLUEPRINT";;
  print (str_mul "=" 80);;
  system_message ← dict_getitem (agents (agents_manager self)) "blueprint";
  let blueprint_message := blueprint_message research_output analysis_output in
  emit (outputs self)
       (EvRender Blueprint [research_output; analysis_output] blueprint_message);;
  let r := phase_request self system_message blueprint_message in
  emit (outputs self) (EvCall Blueprint r);;
  blueprint_output ← chat_completions_create (agents_client (agents_manager self)) r;
  emit (outputs self) (EvReply Blueprint blueprint_output);;
  print (nl +:+ "Blueprint Agent Output:");;
  print blueprint_output;;
  dict_setitem (outputs self) "blueprint" blueprint_output;;
  emit (outputs self) (EvStore Blueprint blueprint_output);;
  mret blueprint_output.

Definition conduct_technical_assessment_phase (self : InterviewPlatformWorkflow)
    (blueprint_output : string) : M world string :=
  print (nl +:+ str_mul "=" 80);;
  print "PHASE 4: TECHNICAL FEASIBILITY ASSESSMENT";;
  print (str_mul "=" 80);;
  system_message ← dict_getitem (agents (agents_manager self)) "technical";
  let technical_message := technical_message blueprint_output in
  emit (outputs self) (EvRender Technical [blueprint_output] technical_message);;
  let r := phase_request self system_message technical_message in
  emit (outputs self) (EvCall Technical r);;
  technical_output ← chat_completions_create (agents_client (agents_manager self)) r;
  emit (outputs self) (EvReply Technical technical_output);;
  print (nl +:+ "Technical Agent Output:");;
  print technical_output;;
  dict_setitem (outputs self) "technical" technical_output;;
  emit (outputs self) (EvStore Technical technical_output);;
  mret technical_output.

Definition conduct_review_phase (self : InterviewPlatformWorkflow)
    (blueprint_output technical_output : string) : M world string :=
  print (nl +:+ str_mul "=" 80);;
  print "PHASE 5: PRODUCT REVIEW & RECOMMENDATIONS";;
  print (str_mul "=" 80);;
  system_message ← dict_getitem (agents (agents_manager self)) "reviewer";
  let review_message := review_message blueprint_output technical_output in
  emit (outputs self)
       (EvRender Review [blueprint_output; technical_output] review_message);;
  let r := phase_request self system_message review_message in
  emit (outputs self) (EvCall Review r);;
  review_output ← chat_completions_create (agents_client (agents_manager self)) r;
  emit (outputs self) (EvReply Review review_output);;
  print (nl +:+ "Reviewer Agent Output:");;
  print review_output;;
  dict_setitem (outputs self) "review" review_output;;
  emit (outputs self) (EvStore Review review_output);;
  mret review_output.

(** Returns [self.outputs]: the reference, not a copy. *)
Definition execute_workflow (self : InterviewPlatformWorkflow) : M world loc :=
  print (nl +:+ str_mul "=" 80);;
  print "AI-POWERED INTERVIEW PLATFORM - PRODUCT PLANNING WORKFLOW";;
  print (str_mul "=" 80);;
  print ("Start Time: " +:+ strftime env "%Y-%m-%d %H:%M:%S");;
  research_output ← initiate_research_phase self;
  analysis_output ← conduct_analysis_phase self research_output;
  blueprint_output ← create_blueprint_phase self research_output analysis_output;
  technical_output ← conduct_technical_assessment_phase self blueprint_output;
  review_output ← conduct_review_phase self blueprint_output technical_output;
  mret (outputs self).

(** *** class OutputManager *)

(** [outputs.get(k, dflt)] through a reference. *)
Definition dict_get_ref (l : loc) (k dflt : string) : M world string :=
  fun w => (Ok (dict_get (read_dict l w) k dflt), w).

(** [output_dir or Config.OUTPUT_DIR]: [None] and the empty string are falsy. *)
Definition OutputManager_init (output_dir : option string) : M world OutputManager :=
  let output_dir :=
    match output_dir with
    | Some d => if bool_decide (d = "") then OUTPUT_DIR env else d
    | None => OUTPUT_DIR env
    end in
  mret {| output_dir := output_dir; timestamp := strftime env "%Y%m%d_%H%M%S" |}.

Definition save_outputs (self : OutputManager) (outputs : loc) : M world string :=
  let output_file :=
    path_join (output_dir self) ("workflow_outputs_" +:+ timestamp self +:+ ".txt") in
  file_open_w (can_open env) output_file;;
  file_write output_file (str_mul "=" 80 +:+ nl);;
  file_write output_file ("AI-POWERED INTERVIEW PLATFORM - PRODUCT PLAN" +:+ nl);;
  file_write output_file (str_mul "=" 80 +:+ nl);;
  file_write output_file
    ("Generated: " +:+ strftime env "%Y-%m-%d %H:%M:%S" +:+ nl +:+ nl);;
  file_write output_file ("PHASE 1: MARKET RESEARCH & COMPETITIVE ANALYSIS" +:+ nl);;
  file_write output_file (str_mul "-" 80 +:+ nl);;
  research ← dict_get_ref outputs "research" "No research output";
  file_write output_file (research +:+ nl +:+ nl);;
  file_write output_file ("PHASE 2: MARKET GAP ANALYSIS & OPPORTUNITIES" +:+ nl);;
  file_write output_file (str_mul "-" 80 +:+ nl);;
  analysis ← dict_get_ref outputs "analysis" "No analysis output";
  file_write output_file (analysis +:+ nl +:+ nl);;
  file_write output_file ("PHASE 3: PRODUCT BLUEPRINT" +:+ nl);;
  file_write output_file (str_mul "-" 80 +:+ nl);;
  blueprint ← dict_get_ref outputs "blueprint" "No blueprint output";
  file_write output_file (blueprint +:+ nl +:+ nl);;
  file_write output_file ("PHASE 4: TECHNICAL FEASIBILITY ASSESSMENT" +:+ nl);;
  file_write output_file (str_mul "-" 80 +:+ nl);;
  technical ← dict_get_ref outputs "technical" "No technical output";
  file_write output_file (technical +:+ nl +:+ nl);;
  file_write output_file ("PHASE 5: PRODUCT REVIEW & RECOMMENDATIONS" +:+ nl);;
  file_write output_file (str_mul "-" 80 +:+ nl);;
  review ← dict_get_ref outputs "review" "No review output";
  file_write output_file (review +:+ nl +:+ nl);;
  mret output_file.

Definition create_summary (self : OutputManager) (outputs : loc) : M world string :=
  let summary_file :=
    path_join (output_dir self) ("summary_" +:+ timestamp self +:+ ".txt") in
  file_open_w (can_open env) summary_file;;
  file_write summary_file ("EXECUTIVE SUMMARY" +:+ nl);;
  file_write summary_file (str_mul "=" 80 +:+ nl);;
  file_write summary_file ("AI-Powered Interview Platform - Product Plan" +:+ nl);;
  file_write summary_file
    ("Date: " +:+ strftime env "%Y-%m-%d %H:%M:%S" +:+ nl +:+ nl);;
  file_write summary_file ("WORKFLOW PHASES COMPLETED:" +:+ nl);;
  file_write summary_file ("✓ Market Research & Competitive Analysis" +:+ nl);;
  file_write summary_file ("✓ Market Gap & Opportunity Identification" +:+ nl);;
  file_write summary_file ("✓ Product Blueprint Creation" +:+ nl);;
  file_write summary_file ("✓ Technical Feasibility Assessment" +:+ nl);;
  file_write summary_file ("✓ Strategic Review & Recommendations" +:+ nl +:+ nl);;
  file_write summary_file ("KEY DELIVERABLES:" +:+ nl);;
  file_write summary_file ("1. Competitive landscape analysis" +:+ nl);;
  file_write summary_file ("2. Three identified market opportunities" +:+ nl);;
  file_write summary_file ("3. Product features and user journey" +:+ nl);;
  file_write summary_file ("4. Technical feasibility assessment" +:+ nl);;
  file_write summary_file ("5. Strategic recommendations and next steps" +:+ nl +:+ nl);;
  file_write summary_file
    ("All outputs saved in workflow_outputs_" +:+ timestamp self +:+ ".txt" +:+ nl);;
  mret summary_file.

(** *** main *)

Definition main_body : M world bool :=
  print "Validating configuration...";;
  if negb (validate_setup env) then
    print (nl +:+ "✗ Configuration validation failed");;
    print "Please ensure OPENAI_API_KEY is set in the parent directory .env file";;
    mret false
  else
    print (get_summary env);;
    let config_list := get_config_list env in
    print "Initializing agents...";;
    agents_manager ← InterviewPlatformAgents_init config_list;
    create_research_agent agents_manager;;
    print "✓ ResearchAgent created";;
    create_analysis_agent agents_manager;;
    print "✓ AnalysisAgent created";;
    create_blueprint_agent agents_manager;;
    print "✓ BlueprintAgent created";;
    create_technical_agent agents_manager;;
    print "✓ TechnicalAgent created";;
    create_reviewer_agent agents_manager;;
    print "✓ ReviewerAgent created";;
    print (nl +:+ "Initiating workflow...");;
    workflow ← InterviewPlatformWorkflow_init agents_manager;
    outputs ← execute_workflow workflow;
    print (nl +:+ "Saving outputs...");;
    output_manager ← OutputManager_init None;
    output_file ← save_outputs output_manager outputs;
    summary_file ← create_summary output_manager outputs;
    print (nl +:+ str_mul "=" 80);;
    print "WORKFLOW COMPLETED SUCCESSFULLY";;
    print (str_mul "=" 80);;
    print ("Full outputs saved to: " +:+ output_file);;
    print ("Summary saved to: " +:+ summary_file);;
    print ("End Time: " +:+ strftime env "%Y-%m-%d %H:%M:%S");;
    mret true.

(** The [except Exception as e] handler prints and re-raises. *)
Definition main : M world bool :=
  try_except main_body
    (fun e =>
       print (nl +:+ "Error during workflow execution: " +:+ str_exn env e);;
       print "Please ensure:";;
       print "  1. OPENAI_API_KEY is set in ../.env";;
       print "  2. pyautogen is installed: pip install -r requirements.txt";;
       print "  3. Parent directory .env file exists and is properly configured";;
       raise e).

End Script.

(** The world in which the interpreter starts. *)
Definition initial_world : world := World ∅ [] ∅ [] [].

End Autogen.

(** ** crewai/crewai_demo.py *)

Module Crewai.

Section Tools.

(** The tool bodies are run in an arbitrary ambient state [W]: whatever the
    process could touch (the network through [requests], files, the
    environment). *)
Context {W : Type}.

Definition search_flight_prices (destination : string) (departure_city : option string)
  : M W string :=
  let departure_city := default "New York" departure_city in
  let search_query :=
    "flights from "
  +:+ departure_city
  +:+ " to "
  +:+ destination
  +:+ " prices 2026 best options" in
  mret ("
    Research task: Find flights from "
  +:+ departure_city
  +:+ " to "
  +:+ destination
  +:+ ".

    Please research and provide:
    1. Current flight options with prices (check Kayak, Skyscanner, Google Flights)
    2. Airlines operating these routes
    3. Flight durations and layover information
    4. Best booking times and price trends
    5. Seasonal pricing variations

    Focus on realistic, current pricing for January 2026 travel.
    ").

Definition search_hotel_options (location check_in_date : string) : M W string :=
  let search_query :=
    "hotels in "
  +:+ location
  +:+ " "
  +:+ check_in_date
  +:+ " reviews ratings prices 2026" in
  mret ("
    Research task: Find hotels in "
  +:+ location
  +:+ " for check-in "
  +:+ check_in_date
  +:+ ".

    Please research and provide:
    1. Top-rated hotels with guest reviews (check Booking.com, TripAdvisor, Google Hotels)
    2. Current pricing for 5-night stays
    3. Hotel amenities and facilities
    4. Location details and proximity to attractions
    5. Guest ratings and recommendation reasons

    Include budget, mid-range, and luxury options.
    Focus on hotels with high ratings and realistic current prices.
    ").

Definition search_local_transportation (destination : string) : M W string :=
  let search_query :=
    destination
  +:+ " local transportation public transit rental cars taxis rideshare 2026" in
  mret ("
        Research task: Find local transportation options in "
  +:+ destination
  +:+ ".

        Please research and provide:
        1. Public transportation systems (buses, trains, subways)
        2. Rental car options and average daily rates
        3. Taxi and rideshare services (Uber, Lyft, local equivalents)
        4. Transportation passes or tourist cards
        5. Estimated costs for different transportation methods
        6. Best transportation options for tourists
        7. Driving considerations (license requirements, road conditions)
        8. Walking and biking options

        Provide realistic, current pricing and practical advice for travelers.
        Focus on options that are convenient and cost-effective for tourists.
        ").

Definition search_attractions_activities (destination : string) : M W string :=
  let search_query :=
    destination
  +:+ " attractions activities tours things to do 2026" in
  mret ("
    Research task: Find attractions and activities in "
  +:+ destination
  +:+ ".

    Please research and provide:
    1. Top-rated attractions and their estimated visit times
    2. Popular day tours and multi-day excursions
    3. Outdoor activities (hiking, water sports, wildlife viewing)
    4. Cultural sites and local experiences
    5. Typical costs for tours and entrance fees
    6. Best time to visit each location
    7. Transportation options between sites

    Include hidden gems and less-known but highly-rated activities.
    Focus on realistic itineraries that can be completed in 5 days.
    ").

Definition search_travel_costs (destination : string) : M W string :=
  let search_query :=
    destination
  +:+ " travel costs budget prices meals transport 2025" in
  mret ("
    Research task: Find cost information for a trip to "
  +:+ destination
  +:+ ".

    Please research and provide:
    1. Average meal costs (budget, mid-range, restaurants)
    2. Public transportation costs and rental car prices
    3. Tour and activity pricing
    4. Entrance fees for attractions
    5. Estimated daily costs for different budget levels
    6. Money-saving tips and best budget periods
    7. Currency exchange rates and payment methods

    Provide realistic, current pricing information for 2025.
    Focus on actual costs travelers can expect.
    ").

End Tools.

(** *** Agents and tasks *)

(** The keyword arguments given to [crewai.Agent] and [crewai.Task]; a tool
    is referred to by the name of its function. *)
Record Agent : Type := {
  role : string;
  goal : string;
  backstory : string;
  tools : list string;
  verbose : bool;
  allow_delegation : bool
}.

Record Task : Type := {
  description : string;
  agent : Agent;
  expected_output : string
}.

Definition create_hotel_agent (destination trip_dates : string) : Agent :=
  let hotel_location := destination in
  let hotel_location :=
    if String.eqb (lower destination) "iceland" then "Reykjavik"
    else if String.eqb (lower destination) "france" then "Paris"
    else if String.eqb (lower destination) "japan" then "Tokyo"
    else hotel_location in
  {| role := "Luxury Hospitality Consultant";
     goal := "Suggest top-rated hotels in "
  +:+ hotel_location
  +:+ " for the "
  +:+ destination
  +:+ " trip ("
  +:+ trip_dates
  +:+ "), considering amenities, location, and value for money. Use real hotel data from booking sites with current prices and reviews.";
     backstory := "You are Marco 'The Concierge' Rodriguez, a five-star hotel consultant who has personally inspected over 500 luxury properties worldwide. Formerly the head concierge at The Ritz-Carlton and Four Seasons, you have an uncanny ability to match travelers with their perfect accommodation. You remember every hotel's secret amenities, which rooms have the best views, and which hotels offer complimentary upgrades. Your network includes hotel general managers across six continents, and you can spot a fake review from a mile away. You believe the right hotel can make or break a vacation experience.";
     tools := ["search_hotel_options"];
     verbose := true;
     allow_delegation := false |}.

Definition create_hotel_task (hotel_agent : Agent) (destination trip_dates : string) : Task :=
  let hotel_location := destination in
  let hotel_location :=
    if String.eqb (lower destination) "iceland" then "Reykjavik"
    else if String.eqb (lower destination) "france" then "Paris"
    else if String.eqb (lower destination) "japan" then "Tokyo"
    else hotel_location in
  {| description := "Based on the trip dates ("
  +:+ trip_dates
  +:+ "), find and recommend the top 3-4 REAL hotels in "
  +:+ hotel_location
  +:+ ". Research actual hotels on Booking.com, TripAdvisor, Google Hotels, and Expedia. For each hotel, provide the actual name, current guest ratings, real prices per night, confirmed amenities, and explain why it suits this trip. Include a mix of budget, mid-range, and luxury options with honest reviews.";
     agent := hotel_agent;
     expected_output := "A curated list of 3-4 REAL hotel recommendations in "
  +:+ hotel_location
  +:+ " with actual details about each hotel, confirmed amenities, real guest ratings, current prices, and personalized recommendations based on actual guest reviews" |}.

(** *** The command-line block *)

(** The [kwargs] dict: its six keys are fixed, only the values change. *)
Record kwargs : Type := Kwargs {
  destination : string;
  trip_duration : string;
  trip_dates : string;
  departure_city : string;
  travelers : Z;
  budget_preference : string
}.

Definition default_kwargs : kwargs :=
  {| destination := "Iceland";
     trip_duration := "5 days";
     trip_dates := "January 15-20, 2026";
     departure_city := "New York";
     travelers := 2;
     budget_preference := "mid-range" |}.

Definition set_destination (v : string) (k : kwargs) : kwargs :=
  Kwargs v (trip_duration k) (trip_dates k) (departure_city k) (travelers k)
         (budget_preference k).
Definition set_trip_duration (v : string) (k : kwargs) : kwargs :=
  Kwargs (destination k) v (trip_dates k) (departure_city k) (travelers k)
         (budget_preference k).
Definition set_trip_dates (v : string) (k : kwargs) : kwargs :=
  Kwargs (destination k) (trip_duration k) v (departure_city k) (travelers k)
         (budget_preference k).
Definition set_departure_city (v : string) (k : kwargs) : kwargs :=
  Kwargs (destination k) (trip_duration k) (trip_dates k) v (travelers k)
         (budget_preference k).
Definition set_travelers (v : Z) (k : kwargs) : kwargs :=
  Kwargs (destination k) (trip_duration k) (trip_dates k) (departure_city k) v
         (budget_preference k).
Definition set_budget_preference (v : string) (k : kwargs) : kwargs :=
  Kwargs (destination k) (trip_duration k) (trip_dates k) (departure_city k)
         (travelers k) v.

Section CommandLine.

Context {W : Type}.

(** The builtin [int] on a string ([None] where Python raises
    [ValueError]) and the script's own [main], which builds and runs the
    crew. *)
Context (int : string -> option Z).
Context (main : kwargs -> M W unit).

Definition int_of (s : string) : M W Z :=
  match int s with
  | Some n => mret n
  | None => raise (ValueError s)
  end.

(** The body of [if __name__ == "__main__":], with [sys.argv] as [argv]. *)
Definition dunder_main (argv : list string) : M W unit :=
  let kwargs := default_kwargs in
  kwargs ← (if Nat.ltb 1 (length argv)
            then a ← list_getitem argv 1; mret (set_destination a kwargs)
            else mret kwargs);
  kwargs ← (if Nat.ltb 2 (length argv)
            then a ← list_getitem argv 2; mret (set_trip_duration a kwargs)
            else mret kwargs);
  kwargs ← (if Nat.ltb 3 (length argv)
            then a ← list_getitem argv 3; mret (set_departure_city a kwargs)
            else mret kwargs);
  kwargs ← (if Nat.ltb 4 (length argv)
            then a ← list_getitem argv 4; mret (set_trip_dates a kwargs)
            else mret kwargs);
  kwargs ← (if Nat.ltb 5 (length argv)
            then a ← list_getitem argv 5; n ← int_of a; mret (set_travelers n kwargs)
            else mret kwargs);
  kwargs ← (if Nat.ltb 6 (length argv)
            then a ← list_getitem argv 6; mret (set_budget_preference a kwargs)
            else mret kwargs);
  main kwargs.

End CommandLine.

End Crewai.

(** ** crewai/crewai_demo.py: the crew and [main] *)

Module CrewaiMain.

Import Crewai.

(** [str.upper], on the ASCII letters. *)
Definition upper_ascii (c : ascii) : ascii :=
  let n := nat_of_ascii c in
  if Nat.leb 97 n && Nat.leb n 122 then ascii_of_nat (n - 32) else c.

Fixpoint upper (s : string) : string :=
  match s with
  | EmptyString => EmptyString
  | String c s' => String (upper_ascii c) (upper s')
  end.

(** [str] of an [int], as an f-string formats it. *)
Definition str_int (n : Z) : string :=
  DecimalString.NilZero.string_of_int (Z.to_int n).

Definition create_flight_agent (destination : string) (trip_dates : string) : Agent :=
  {| role := "Senior Aviation Logistics Expert";
     goal := "Research and recommend the best flight options for the "
      +:+ destination
      +:+ " trip ("
      +:+ trip_dates
      +:+ "), considering dates, airlines, prices, and flight durations. Use real data from flight booking sites to provide accurate, current pricing.";
     backstory := "You are Amelia 'SkyMaster' Chen, a former airline operations manager with 15 years of experience in aviation logistics. You've personally coordinated flight routes for major international carriers and have an encyclopedic knowledge of airline alliances, seasonal pricing patterns, and hidden flight deals. Your expertise includes predicting price drops, identifying optimal layover cities, and knowing which airlines offer the best value for specific destinations. You're known for finding business class upgrades at economy prices and can navigate complex multi-city itineraries with ease.";
     tools := ["search_flight_prices"];
     verbose := true;
     allow_delegation := false |}.

Definition create_itinerary_agent (destination : string) (trip_duration : string) : Agent :=
  {| role := "Adventure Experience Curator";
     goal := "Create a detailed day-by-day travel plan with activities and attractions that maximize the "
      +:+ destination
      +:+ " experience in "
      +:+ trip_duration
      +:+ ". Use real current information about attractions, opening hours, and accessibility.";
     backstory := "You are Professor Eleanor 'Wanderlust' Vanderbilt, an anthropologist and professional travel curator with 20 years of experience designing bespoke journeys. You've lived in 30 countries, speak 5 languages fluently, and have a PhD in Cultural Anthropology from Oxford. Your specialty is creating immersive experiences that go beyond tourist traps to reveal the authentic soul of "
      +:+ destination
      +:+ ". You know every hidden temple, local artisan workshop, and family-run restaurant that doesn't appear in guidebooks. Your itineraries are legendary among elite travelers for their perfect pacing and cultural depth.";
     tools := ["search_attractions_activities"];
     verbose := true;
     allow_delegation := false |}.

Definition create_transportation_agent (destination : string) : Agent :=
  {| role := "Urban Mobility Specialist";
     goal := "Research and recommend the best local transportation options for getting around "
      +:+ destination
      +:+ ", including public transit, rental cars, taxis, and rideshare services. Use real current data to provide accurate pricing and practical advice.";
     backstory := "You are Alex 'Transit Guru' Kowalski, a former city transportation planner with 15 years of experience optimizing urban mobility systems. You've consulted for major cities worldwide on public transit efficiency and have personally tested transportation systems in over 50 countries. Your expertise includes knowing which transit passes offer the best value, which rental car companies have the fewest hidden fees, and how to navigate complex public transportation networks like a local. You can spot transportation scams from a mile away and always find the most efficient and cost-effective ways to get around any city.";
     tools := ["search_local_transportation"];
     verbose := true;
     allow_delegation := false |}.

Definition create_budget_agent (destination : string) : Agent :=
  {| role := "Travel Financial Strategist";
     goal := "Calculate total trip costs for "
      +:+ destination
      +:+ " and identify cost-saving opportunities while maintaining quality. Use real current pricing data for all expenses.";
     backstory := "You are Dr. Benjamin 'Numbers' Carter, a former investment banker turned travel finance expert with an MBA from Wharton. You've developed proprietary algorithms for optimizing travel budgets without compromising experiences. Your clients include Fortune 500 executives and celebrity travelers who trust your ability to find value in luxury. You can break down any travel expense to its core components, identify hidden fees before they appear, and negotiate corporate rates for individual travelers. Your motto: 'Spend smart, not less, and make every dollar enhance the journey.' You've saved clients over $2 million collectively while upgrading their travel experiences.";
     tools := ["search_travel_costs"];
     verbose := true;
     allow_delegation := false |}.

Definition create_flight_task (flight_agent : Agent) (destination : string) (trip_dates : string) (departure_city : string) : Task :=
  {| description := "Research and compile a list of REAL flight options from "
      +:+ departure_city
      +:+ " to "
      +:+ destination
      +:+ " for the trip ("
      +:+ trip_dates
      +:+ "). Use actual current flight data from booking sites like Skyscanner, Kayak, Google Flights, or Expedia. Find at least 2-3 different flight options from major airlines, including details about departure times, arrival times, duration, and current realistic prices. Provide recommendations on which flight offers the best value considering both price and convenience.";
     agent := flight_agent;
     expected_output := "A detailed report with 2-3 REAL flight options from "
      +:+ departure_city
      +:+ " to "
      +:+ destination
      +:+ " including airlines, times, duration, current prices, and a recommendation with reasoning based on actual data from flight booking sites" |}.

Definition create_transportation_task (transportation_agent : Agent) (destination : string) (trip_duration : string) : Task :=
  {| description := "Research and compile comprehensive local transportation options for "
      +:+ destination
      +:+ " for a "
      +:+ trip_duration
      +:+ " trip. Investigate REAL current options including: public transportation systems, rental car companies, taxi services, rideshare availability, and any tourist transportation passes. Provide actual pricing, practical tips for tourists, and recommendations for the most convenient and cost-effective transportation methods. Consider factors like ease of use, reliability, and value for money.";
     agent := transportation_agent;
     expected_output := "A comprehensive transportation guide for "
      +:+ destination
      +:+ " with REAL options including public transit details, rental car pricing, taxi/rideshare availability, cost comparisons, and practical recommendations for getting around efficiently during a "
      +:+ trip_duration
      +:+ " trip" |}.

Definition create_itinerary_task (itinerary_agent : Agent) (destination : string) (trip_duration : string) (trip_dates : string) : Task :=
  {| description := "Create a detailed "
      +:+ trip_duration
      +:+ " itinerary for "
      +:+ destination
      +:+ " ("
      +:+ trip_dates
      +:+ ") based on REAL current information. Research actual attractions, their opening hours, accessibility, and entry fees. Plan day-by-day activities including visits to real attractions and verified sites. Include realistic estimated travel times between locations, activity durations, and recommended visit times. Consider actual weather patterns for this time period in "
      +:+ destination
      +:+ " and make the itinerary realistic and well-paced.";
     agent := itinerary_agent;
     expected_output := "A detailed day-by-day itinerary for "
      +:+ destination
      +:+ " with REAL activities based on verified attractions, realistic travel times, accurate estimated durations, current entry fees, and practical tips for "
      +:+ trip_duration
      +:+ " trip to "
      +:+ destination |}.

Definition create_budget_task (budget_agent : Agent) (destination : string) (trip_duration : string) : Task :=
  {| description := "Based on the REAL flight options, hotel recommendations, and itinerary created by the other agents, calculate a comprehensive budget for the "
      +:+ trip_duration
      +:+ " "
      +:+ destination
      +:+ " trip using current pricing. Research and include actual costs for flights, accommodation, meals (use real restaurant prices in the destination), activities/tours (verified prices), transportation within "
      +:+ destination
      +:+ ", and miscellaneous expenses. Provide total cost estimates for budget, mid-range, and luxury options based on real prices. Suggest genuine cost-saving tips based on current market conditions.";
     agent := budget_agent;
     expected_output := "A comprehensive budget report with itemized REAL costs for flights, accommodation, meals, activities with actual entry fees, transportation, and total realistic estimates at different budget levels, plus evidence-based cost-saving recommendations for a "
      +:+ trip_duration
      +:+ " trip to "
      +:+ destination |}.

(** The keyword arguments given to [crewai.Crew]. *)
Record Crew : Type := {
  agents : list Agent;
  tasks : list Task;
  crew_verbose : bool;
  process : string
}.

(** The [inputs] dict given to [crew.kickoff]: its six keys are fixed. *)
Record inputs : Type := {
  trip_destination : string;
  inputs_trip_duration : string;
  inputs_trip_dates : string;
  inputs_departure_city : string;
  inputs_travelers : Z;
  inputs_budget_preference : string
}.

(** What [except Exception] can catch in [main]: an exception that
    [crew.kickoff] raised, or the [OSError] of [open]. *)
Inductive exception : Type :=
  | CrewError (message : string)
  | OpenError (path : string).

(** How a call ends: it returns, [exit] was called, or an exception is on
    its way up. *)
Inductive outcome (A : Type) : Type :=
  | Done (a : A)
  | Exit (code : Z)
  | Raised (e : exception).
Arguments Done {A} a.
Arguments Exit {A} code.
Arguments Raised {A} e.

(** What the script can see and change: the two streams, [os.environ], the
    files, and a log of the calls of [crew.kickoff] with the environment
    each one found. *)
Record world : Type := World {
  stdout : list string;
  stderr : list string;
  environ : gmap string string;
  files : gmap string string;
  kickoffs : list (gmap string string * Crew * inputs)
}.

(** [shared_config], the clock, the file system and the crewai library:
    [kickoff] is the reply of the library for the environment variables, the
    crew and the inputs it is given. *)
Record Config : Type := {
  validate_config : list string * bool;
  API_KEY : string;
  API_BASE : string;
  USE_GROQ : bool;
  OPENAI_MODEL : string;
  print_summary : list string;
  kickoff : gmap string string -> Crew -> inputs -> string + string;
  now : string;
  script_dir_div : string -> string;
  can_open : string -> bool;
  str_exception : exception -> string;
  format_exc : exception -> list string
}.

Definition P (A : Type) : Type := world -> outcome A * world.

#[export] Instance P_ret : MRet P :=
  fun A a w => (Done a, w).

#[export] Instance P_bind : MBind P :=
  fun A B k m w =>
    match m w with
    | (Done a, w') => k a w'
    | (Exit code, w') => (Exit code, w')
    | (Raised e, w') => (Raised e, w')
    end.

(** [exit] raises [SystemExit], which [except Exception] does not catch. *)
Definition exit {A : Type} (code : Z) : P A :=
  fun w => (Exit code, w).

Definition try_except {A : Type} (m : P A) (h : exception -> P A) : P A :=
  fun w =>
    match m w with
    | (Raised e, w') => h e w'
    | r => r
    end.

Definition print (s : string) : P unit :=
  fun w => (Done tt, World (stdout w ++ [s]) (stderr w) (environ w) (files w) (kickoffs w)).

Definition environ_setitem (k v : string) : P unit :=
  fun w => (Done tt, World (stdout w) (stderr w) (<[k := v]> (environ w)) (files w)
                           (kickoffs w)).

Definition file_open_w (can_open : string -> bool) (path : string) : P unit :=
  fun w =>
    if can_open path
    then (Done tt, World (stdout w) (stderr w) (environ w) (<[path := ""]> (files w))
                         (kickoffs w))
    else (Raised (OpenError path), w).

Definition file_write (path chunk : string) : P unit :=
  fun w => (Done tt, World (stdout w) (stderr w) (environ w)
                           (<[path := default "" (files w !! path) +:+ chunk]> (files w))
                           (kickoffs w)).

Definition validate_config_call (cfg : Config) : P bool :=
  fun w => (Done (validate_config cfg).2,
            World (stdout w ++ (validate_config cfg).1) (stderr w) (environ w) (files w)
                  (kickoffs w)).

Definition Config_print_summary (cfg : Config) : P unit :=
  fun w => (Done tt, World (stdout w ++ print_summary cfg) (stderr w) (environ w) (files w)
                           (kickoffs w)).

Definition traceback_print_exc (cfg : Config) (e : exception) : P unit :=
  fun w => (Done tt, World (stdout w) (stderr w ++ format_exc cfg e) (environ w) (files w)
                           (kickoffs w)).

Definition Crew_kickoff (cfg : Config) (crew : Crew) (i : inputs) : P string :=
  fun w =>
    let w' := World (stdout w) (stderr w) (environ w) (files w)
                    (kickoffs w ++ [(environ w, crew, i)]) in
    match kickoff cfg (environ w) crew i with
    | inl result => (Done result, w')
    | inr message => (Raised (CrewError message), w')
    end.

Definition main (cfg : Config)
    (destination trip_duration trip_dates departure_city : string) (travelers : Z)
    (budget_preference : string) : P unit :=
  print (str_mul "=" 80);;
  print "CrewAI Multi-Agent Travel Planning System (REAL API VERSION)";;
  print ("Planning a " +:+ trip_duration +:+ " Trip to " +:+ destination);;
  print (str_mul "=" 80);;
  print "";;
  print ("ðŸ“ Destination: " +:+ destination);;
  print ("ðŸ“… Dates: " +:+ trip_dates);;
  print ("âœˆï¸  Departure from: " +:+ departure_city);;
  print ("ðŸ‘¥ Travelers: " +:+ str_int travelers);;
  print ("ðŸ’° Budget: " +:+ budget_preference);;
  print "";;
  print "ðŸ” Validating configuration...";;
  valid ← validate_config_call cfg;
  (if negb valid then
     print "âŒ Configuration validation failed. Please set up your .env file.";;
     exit 1
   else mret tt);;
  environ_setitem "OPENAI_API_KEY" (API_KEY cfg);;
  environ_setitem "OPENAI_API_BASE" (API_BASE cfg);;
  (if USE_GROQ cfg then
     environ_setitem "OPENAI_MODEL_NAME" (OPENAI_MODEL cfg);;
     mret tt
   else mret tt);;
  print "âœ… Configuration validated successfully!";;
  print "";;
  Config_print_summary cfg;;
  print "";;
  print "âš ï¸  IMPORTANT: This version uses REAL OpenAI API calls and web search";;
  print "    Agents will research actual current prices and real information";;
  print "";;
  print "Tip: Check your API usage at https://platform.openai.com/account/usage";;
  print "";;
  print "[1/5] Creating Flight Specialist Agent (researches real flights)...";;
  let flight_agent := create_flight_agent destination trip_dates in
  print "[2/5] Creating Accommodation Specialist Agent (researches real hotels)...";;
  let hotel_agent := create_hotel_agent destination trip_dates in
  print "[3/5] Creating Travel Planner Agent (researches real attractions)...";;
  let itinerary_agent := create_itinerary_agent destination trip_duration in
  print "[4/5] Creating Transportation Specialist Agent (researches local transport)...";;
  let transportation_agent := create_transportation_agent destination in
  print "[5/5] Creating Financial Advisor Agent (analyzes real costs)...";;
  let budget_agent := create_budget_agent destination in
  print (nl +:+ "âœ… All agents created successfully!");;
  print "";;
  print "Creating tasks for the crew...";;
  let flight_task := create_flight_task flight_agent destination trip_dates departure_city in
  let hotel_task := create_hotel_task hotel_agent destination trip_dates in
  let itinerary_task := create_itinerary_task itinerary_agent destination trip_duration trip_dates in
  let transportation_task := create_transportation_task transportation_agent destination trip_duration in
  let budget_task := create_budget_task budget_agent destination trip_duration in
  print "Tasks created successfully!";;
  print "";;
  print "Forming the Travel Planning Crew...";;
  print "Task Sequence: FlightAgent â†’ HotelAgent â†’ ItineraryAgent â†’ TransportationAgent â†’ BudgetAgent";;
  print "";;
  let crew :=
    {| agents := [flight_agent; hotel_agent; itinerary_agent; transportation_agent; budget_agent];
       tasks := [flight_task; hotel_task; itinerary_task; transportation_task; budget_task];
       crew_verbose := true;
       process := "sequential" |} in
  print (str_mul "=" 80);;
  print "Starting Crew Execution with REAL API Calls...";;
  print ("Planning "
        +:+ trip_duration
        +:+ " trip to "
        +:+ destination
        +:+ " ("
        +:+ trip_dates
        +:+ ")");;
  print (str_mul "=" 80);;
  print "";;
  try_except
    (
     result ← Crew_kickoff cfg crew
                {| trip_destination := destination;
                   inputs_trip_duration := trip_duration;
                   inputs_trip_dates := trip_dates;
                   inputs_departure_city := departure_city;
                   inputs_travelers := travelers;
                   inputs_budget_preference := budget_preference |};
     print "";;
     print (str_mul "=" 80);;
     print "âœ… Crew Execution Completed Successfully!";;
     print (str_mul "=" 80);;
     print "";;
     print ("FINAL TRAVEL PLAN REPORT FOR "
           +:+ upper destination
           +:+ " (Based on Real API Data):");;
     print (str_mul "-" 80);;
     print result;;
     print (str_mul "-" 80);;
     let output_filename := "crewai_output_" +:+ lower destination +:+ ".txt" in
     let output_path := script_dir_div cfg output_filename in
     file_open_w (can_open cfg) output_path;;
     file_write output_path (str_mul "=" 80 +:+ nl);;
     file_write output_path ("CrewAI Multi-Agent Travel Planning System - Real API Execution Report"
           +:+ nl);;
     file_write output_path ("Planning a " +:+ trip_duration +:+ " Trip to " +:+ destination +:+ nl);;
     file_write output_path (str_mul "=" 80 +:+ nl +:+ nl);;
     file_write output_path ("Trip Details:" +:+ nl);;
     file_write output_path ("  Destination: " +:+ destination +:+ nl);;
     file_write output_path ("  Duration: " +:+ trip_duration +:+ nl);;
     file_write output_path ("  Dates: " +:+ trip_dates +:+ nl);;
     file_write output_path ("  Departure: " +:+ departure_city +:+ nl);;
     file_write output_path ("  Travelers: " +:+ str_int travelers +:+ nl);;
     file_write output_path ("  Budget Preference: " +:+ budget_preference +:+ nl +:+ nl);;
     file_write output_path ("Execution Time: " +:+ now cfg +:+ nl);;
     file_write output_path ("API Version: REAL API CALLS (OpenAI GPT-4)" +:+ nl);;
     file_write output_path ("Data Source: Web research via OpenAI" +:+ nl +:+ nl);;
     file_write output_path ("IMPORTANT NOTES:" +:+ nl);;
     file_write output_path ("- All flight prices, hotel costs, attraction information, and transportation options are based on real data"
           +:+ nl);;
     file_write output_path ("- Prices are current as of the date this was run" +:+ nl);;
     file_write output_path ("- Hotel availability, transportation schedules, and prices may vary by booking date"
           +:+ nl);;
     file_write output_path ("- Weather conditions, attraction hours, and transportation availability should be verified before travel"
           +:+ nl
           +:+ nl);;
     file_write output_path ("FINAL TRAVEL PLAN REPORT:" +:+ nl);;
     file_write output_path (str_mul "-" 80 +:+ nl);;
     file_write output_path result;;
     file_write output_path (nl +:+ str_mul "-" 80 +:+ nl);;
     print (nl +:+ "âœ… Output saved to " +:+ output_filename);;
     print "â„¹ï¸  Note: All data in this report is based on REAL API calls to OpenAI";;
     print "    and research of current travel information sources.";;
     mret tt)
    (fun e =>
       print (nl +:+ "âŒ Error during crew execution: " +:+ str_exception cfg e);;
       print (nl +:+ "ðŸ” Troubleshooting:");;
       print "   1. Verify OPENAI_API_KEY is set: export OPENAI_API_KEY='sk-...'";;
       print "   2. Check API key is valid and has sufficient credits";;
       print "   3. Verify internet connection for web research";;
       print "   4. Check OpenAI API status at https://status.openai.com";;
       print "";;
       traceback_print_exc cfg e;;
       mret tt);;
  mret tt.

End CrewaiMain.

(** ** Vocabulary for the properties of the workflow *)

Module Workflow.

Import Autogen.

(** [needle in hay] on strings, and its logical reading. *)
Fixpoint str_in (needle hay : string) : bool :=
  String.prefix needle hay ||
  match hay with
  | EmptyString => false
  | String _ hay' => str_in needle hay'
  end.

Definition is_substring (needle hay : string) : Prop :=
  exists pre post, hay = pre +:+ needle +:+ post.

(** The key under which the agent of a phase is registered in
    [agents_manager.agents], the banner line of the phase and the line
    printed before its output. *)
Definition agent_key (s : stage) : string :=
  match s with
  | Research => "research"
  | Analysis => "analysis"
  | Blueprint => "blueprint"
  | Technical => "technical"
  | Review => "reviewer"
  end.

Definition title (s : stage) : string :=
  match s with
  | Research => "PHASE 1: MARKET RESEARCH"
  | Analysis => "PHASE 2: MARKET GAP ANALYSIS"
  | Blueprint => "PHASE 3: PRODUCT BLUEPRINT"
  | Technical => "PHASE 4: TECHNICAL FEASIBILITY ASSESSMENT"
  | Review => "PHASE 5: PRODUCT REVIEW & RECOMMENDATIONS"
  end.

Definition label (s : stage) : string :=
  match s with
  | Research => "Research Agent Output:"
  | Analysis => "Analysis Agent Output:"
  | Blueprint => "Blueprint Agent Output:"
  | Technical => "Technical Agent Output:"
  | Review => "Reviewer Agent Output:"
  end.

(** All five agents have been created, as [main] does before it builds the
    workflow. *)
Definition registered (m : InterviewPlatformAgents) (w : world) : Prop :=
  forall s, is_Some (read_dict (agents m) w !! agent_key s).

Definition sys_msg (m : InterviewPlatformAgents) (w : world) (s : stage) : string :=
  default "" (read_dict (agents m) w !! agent_key s).

(** What a computation appended to the log and to the requests sent. *)
Definition new_trace (w w' : world) : list (event * dict) :=
  drop (length (trace w)) (trace w').

Definition new_requests (w w' : world) : list request :=
  drop (length (requests w)) (requests w').

Definition event_stage (ev : event) : stage :=
  match ev with
  | EvRender s _ _ | EvCall s _ | EvReply s _ | EvStore s _ => s
  end.

(** A phase starts work for its stage when it renders or calls. *)
Definition is_start (ev : event) : bool :=
  match ev with
  | EvRender _ _ _ | EvCall _ _ => true
  | _ => false
  end.

(** Number of calls of [chat.completions.create] made for stage [s].  One
    call may take several round trips to the model: [Openai.round_trips]
    counts those. *)
Fixpoint attempts (s : stage) (tr : list (event * dict)) : nat :=
  match tr with
  | [] => 0
  | (EvCall s' _, _) :: tr' => (if decide (s' = s) then 1 else 0) + attempts s tr'
  | _ :: tr' => attempts s tr'
  end.

(** Which earlier outputs [execute_workflow] hands to each phase. *)
Definition phase_inputs (s : stage) : list stage :=
  match s with
  | Research => []
  | Analysis => [Research]
  | Blueprint => [Research; Analysis]
  | Technical => [Blueprint]
  | Review => [Blueprint; Technical]
  end.

(** The prompt of a phase as a function of the arguments it is called with. *)
Definition render (s : stage) (inputs : list string) : string :=
  match s, inputs with
  | Research, [] => initial_message
  | Analysis, [r] => analysis_message r
  | Blueprint, [r; a] => blueprint_message r a
  | Technical, [b] => technical_message b
  | Review, [b; t] => review_message b t
  | _, _ => ""
  end.

Definition outs5 (r a b t v : string) (s : stage) : string :=
  match s with
  | Research => r
  | Analysis => a
  | Blueprint => b
  | Technical => t
  | Review => v
  end.

Section Shape.

Context (env : Env).

(** The common shape of the five phase methods. *)
Definition phase (self : InterviewPlatformWorkflow) (s : stage)
    (inputs : list string) (prompt : string) : M world string :=
  print (nl +:+ str_mul "=" 80);;
  print (title s);;
  print (str_mul "=" 80);;
  system_message ← dict_getitem (agents (agents_manager self)) (agent_key s);
  emit (outputs self) (EvRender s inputs prompt);;
  let r := phase_request env self system_message prompt in
  emit (outputs self) (EvCall s r);;
  out ← chat_completions_create (agents_client (agents_manager self)) r;
  emit (outputs self) (EvReply s out);;
  print (nl +:+ label s);;
  print out;;
  dict_setitem (outputs self) (stage_key s) out;;
  emit (outputs self) (EvStore s out);;
  mret out.

(** The world a phase leaves when the model answers [out], and when the
    call raises. *)
Definition phase_done (self : InterviewPlatformWorkflow) (s : stage)
    (inputs : list string) (prompt sm out : string) (w : world) : world :=
  let d := read_dict (outputs self) w in
  let r := phase_request env self sm prompt in
  World (<[outputs self := <[stage_key s := out]> d]> (heap w))
        (stdout w ++ [nl +:+ str_mul "=" 80; title s; str_mul "=" 80; nl +:+ label s; out])
        (files w)
        (requests w ++ [r])
        (trace w ++ [(EvRender s inputs prompt, d); (EvCall s r, d); (EvReply s out, d);
                     (EvStore s out, <[stage_key s := out]> d)]).

Definition phase_failed (self : InterviewPlatformWorkflow) (s : stage)
    (inputs : list string) (prompt sm : string) (w : world) : world :=
  let d := read_dict (outputs self) w in
  let r := phase_request env self sm prompt in
  World (heap w)
        (stdout w ++ [nl +:+ str_mul "=" 80; title s; str_mul "=" 80])
        (files w)
        (requests w ++ [r])
        (trace w ++ [(EvRender s inputs prompt, d); (EvCall s r, d)]).

Definition banner (w : world) : world :=
  World (heap w)
        (stdout w ++ [nl +:+ str_mul "=" 80;
                      "AI-POWERED INTERVIEW PLATFORM - PRODUCT PLANNING WORKFLOW";
                      str_mul "=" 80;
                      "Start Time: " +:+ strftime env "%Y-%m-%d %H:%M:%S"])
        (files w) (requests w) (trace w).

(** The whole workflow, by cases on what the model answers. *)
Definition workflow_outcome (self : InterviewPlatformWorkflow) (w : world)
  : result loc * world :=
  let m := agents_manager self in
  let c := agents_client m in
  let n := length (requests w) in
  let rq s p := phase_request env self (sys_msg m w s) p in
  let w0 := banner w in
  match c n (rq Research initial_message) with
  | Failure e =>
      (Raise (APIError e),
       phase_failed self Research [] initial_message (sys_msg m w Research) w0)
  | Completion r =>
  let w1 := phase_done self Research [] initial_message (sys_msg m w Research) r w0 in
  match c (S n) (rq Analysis (analysis_message r)) with
  | Failure e =>
      (Raise (APIError e),
       phase_failed self Analysis [r] (analysis_message r) (sys_msg m w Analysis) w1)
  | Completion a =>
  let w2 := phase_done self Analysis [r] (analysis_message r) (sys_msg m w Analysis) a w1 in
  match c (S (S n)) (rq Blueprint (blueprint_message r a)) with
  | Failure e =>
      (Raise (APIError e),
       phase_failed self Blueprint [r; a] (blueprint_message r a)
                    (sys_msg m w Blueprint) w2)
  | Completion b =>
  let w3 := phase_done self Blueprint [r; a] (blueprint_message r a)
                       (sys_msg m w Blueprint) b w2 in
  match c (S (S (S n))) (rq Technical (technical_message b)) with
  | Failure e =>
      (Raise (APIError e),
       phase_failed self Technical [b] (technical_message b) (sys_msg m w Technical) w3)
  | Completion t =>
  let w4 := phase_done self Technical [b] (technical_message b)
                       (sys_msg m w Technical) t w3 in
  match c (S (S (S (S n)))) (rq Review (review_message b t)) with
  | Failure e =>
      (Raise (APIError e),
       phase_failed self Review [b; t] (review_message b t) (sys_msg m w Review) w4)
  | Completion v =>
      (Ok (outputs self),
       phase_done self Review [b; t] (review_message b t) (sys_msg m w Review) v w4)
  end end end end end.

(** One run, as [main] starts it: a new workflow object, then
    [execute_workflow] on it. *)
Definition run_workflow (m : InterviewPlatformAgents) : M world loc :=
  workflow ← InterviewPlatformWorkflow_init m;
  execute_workflow env workflow.

Definition fresh_workflow (m : InterviewPlatformAgents) (w : world)
  : InterviewPlatformWorkflow :=
  {| agents_manager := m; outputs := fresh (dom (heap w)) |}.

Definition fresh_world (w : world) : world :=
  set_heap (<[fresh (dom (heap w)) := ∅]> (heap w)) w.

(** The agents' creation in [main]. *)
Definition setup : M world InterviewPlatformAgents :=
  agents_manager ← InterviewPlatformAgents_init env (get_config_list env);
  create_research_agent agents_manager;;
  create_analysis_agent agents_manager;;
  create_blueprint_agent agents_manager;;
  create_technical_agent agents_manager;;
  create_reviewer_agent agents_manager;;
  mret agents_manager.

Context (m : InterviewPlatformAgents) (w : world).

(** A run started in [w] is described by the outputs [o] of the stages it
    completed. *)
Definition inputs_of (o : stage -> string) (s : stage) : list string :=
  o <$> phase_inputs s.

Definition request_of (o : stage -> string) (s : stage) : request :=
  phase_request env (fresh_workflow m w) (sys_msg m w s) (render s (inputs_of o s)).

Definition reply_of (o : stage -> string) (s : stage) : reply :=
  agents_client m (length (requests w) + stage_index s) (request_of o s).

Definition dict_upto (o : stage -> string) (k : nat) : dict :=
  foldl (fun d s => <[stage_key s := o s]> d) ∅ (take k stages).

Definition stage_events (o : stage -> string) (s : stage) : list (event * dict) :=
  let d := dict_upto o (stage_index s) in
  [(EvRender s (inputs_of o s) (render s (inputs_of o s)), d);
   (EvCall s (request_of o s), d);
   (EvReply s (o s), d);
   (EvStore s (o s), <[stage_key s := o s]> d)].

Definition full_trace (o : stage -> string) : list (event * dict) :=
  stages ≫= stage_events o.

Definition full_requests (o : stage -> string) : list request :=
  request_of o <$> stages.

(** [k] stages completed: either all five, or the call of stage [k] raised. *)
Definition run_shape (res : result loc) (w' : world) (o : stage -> string) (k : nat)
  : Prop :=
  (forall s, stage_index s < k -> reply_of o s = Completion (o s)) /\
  new_trace w w' = take (if decide (k = 5) then 20 else 4 * k + 2) (full_trace o) /\
  new_requests w w' = take (S k) (full_requests o) /\
  read_dict (fresh (dom (heap w))) w' = dict_upto o k /\
  is_Some (heap w' !! fresh (dom (heap w))) /\
  (forall l, l <> fresh (dom (heap w)) -> heap w' !! l = heap w !! l) /\
  files w' = files w /\
  ((k = 5 /\ res = Ok (fresh (dom (heap w)))) \/
   (exists s e, stage_index s = k /\ reply_of o s = Failure e /\
                res = Raise (APIError e))).

End Shape.

End Workflow.

(** ** The [openai] package *)

Module Openai.

Import Autogen Workflow.

(** What one network round trip of the client returns: the text of the
    completion, or a failure that is transient (rate limit, timeout, 5xx)
    or fatal (authentication, malformed request, content policy). *)
Inductive response : Type :=
  | Answered (text : string)
  | Rejected (e : api_error).

(** The network as the client finds it: the response to attempt [j],
    counted from 0, of the [i]-th call of [create]. *)
Definition network : Type := nat -> nat -> request -> response.

(** The script builds its client as [OpenAI(api_key=..., base_url=...)] and
    passes no [max_retries], so the default of the package applies: two
    retries after the first attempt, the three attempts of the spec. *)
Definition DEFAULT_MAX_RETRIES : nat := 2.

(** Modelled from the spec: the retry loop of [chat.completions.create].
    The method is code of the [openai] package, which the script imports and
    calls; the package is not among the sources.  As the spec has it, a
    request that fails with a transient error is sent again while attempts
    remain, three attempts in all by default, and a request that fails with
    a fatal error is not retried.  With [retries_taken] round trips made so
    far, the function gives what [create] returns or raises, and the number
    of round trips made in all. *)
Fixpoint send_with_retries (send : nat -> response) (retries_taken remaining : nat)
  : reply * nat :=
  match send retries_taken with
  | Answered text => (Completion text, S retries_taken)
  | Rejected FatalError => (Failure FatalError, S retries_taken)
  | Rejected TransientError =>
      match remaining with
      | O => (Failure TransientError, S retries_taken)
      | S remaining' => send_with_retries send (S retries_taken) remaining'
      end
  end.

(** [create] of a client with the given [max_retries] on the network
    [net], and the number of round trips its [i]-th call makes. *)
Definition create (max_retries : nat) (net : network) : client :=
  fun i r => (send_with_retries (fun j => net i j r) 0 max_retries).1.

Definition round_trips (max_retries : nat) (net : network) (i : nat) (r : request) : nat :=
  (send_with_retries (fun j => net i j r) 0 max_retries).2.

(** The client that [OpenAI(api_key=..., base_url=...)] gives. *)
Definition default_client (net : network) : client :=
  create DEFAULT_MAX_RETRIES net.

(** Number of network round trips made for stage [s]: those of every call
    of [create] logged for the stage, the first call of the log being the
    [i]-th call of the client. *)
Fixpoint trips_from (net : network) (i : nat) (s : stage) (tr : list (event * dict))
  : nat :=
  match tr with
  | [] => 0
  | (EvCall s' r, _) :: tr' =>
      (if decide (s' = s) then round_trips DEFAULT_MAX_RETRIES net i r else 0)
      + trips_from net (S i) s tr'
  | _ :: tr' => trips_from net i s tr'
  end.

Definition stage_round_trips (net : network) (w w' : world) (s : stage) : nat :=
  trips_from net (length (requests w)) s (new_trace w w').

End Openai.

(** ** Vocabulary for the output file *)

Module Report.

Import Autogen Workflow.

(** The heading that [save_outputs] writes before the output of a stage and
    the text it writes when the mapping has no entry for the stage. *)
Definition section_title (s : stage) : string :=
  match s with
  | Research => "PHASE 1: MARKET RESEARCH & COMPETITIVE ANALYSIS"
  | Analysis => "PHASE 2: MARKET GAP ANALYSIS & OPPORTUNITIES"
  | Blueprint => "PHASE 3: PRODUCT BLUEPRINT"
  | Technical => "PHASE 4: TECHNICAL FEASIBILITY ASSESSMENT"
  | Review => "PHASE 5: PRODUCT REVIEW & RECOMMENDATIONS"
  end.

Definition placeholder (s : stage) : string :=
  "No " +:+ stage_key s +:+ " output".

(** The three strings written for one stage. *)
Definition section_chunks (d : dict) (s : stage) : list string :=
  [ section_title s +:+ nl;
    str_mul "-" 80 +:+ nl;
    default (placeholder s) (d !! stage_key s) +:+ nl +:+ nl ].

(** Everything written to the output file, in order. *)
Definition report_chunks (env : Env) (d : dict) : list string :=
  [ str_mul "=" 80 +:+ nl;
    "AI-POWERED INTERVIEW PLATFORM - PRODUCT PLAN" +:+ nl;
    str_mul "=" 80 +:+ nl;
    "Generated: " +:+ strftime env "%Y-%m-%d %H:%M:%S" +:+ nl +:+ nl ]
  ++ (stages ≫= section_chunks d).

(** The content of a file opened for writing after the given writes. *)
Definition written (chunks : list string) : string :=
  foldl String.append "" chunks.

Definition output_path (self : OutputManager) : string :=
  path_join (output_dir self) ("workflow_outputs_" +:+ timestamp self +:+ ".txt").

Definition summary_path (self : OutputManager) : string :=
  path_join (output_dir self) ("summary_" +:+ timestamp self +:+ ".txt").

(** The line that [main] prints for an exception. *)
Definition error_line (env : Env) (e : exn) : string :=
  nl +:+ "Error during workflow execution: " +:+ str_exn env e.

End Report.

(** ** Vocabulary for [main] *)

Module MainRun.

Import Autogen Workflow Report.

(** The phase method of a stage, called as [execute_workflow] calls it when
    the earlier stages gave the outputs [o]. *)
Definition phase_method (env : Env) (self : InterviewPlatformWorkflow)
    (o : stage -> string) (s : stage) : M world string :=
  match s with
  | Research => initiate_research_phase env self
  | Analysis => conduct_analysis_phase env self (o Research)
  | Blueprint => create_blueprint_phase env self (o Research) (o Analysis)
  | Technical => conduct_technical_assessment_phase env self (o Blueprint)
  | Review => conduct_review_phase env self (o Blueprint) (o Technical)
  end.

(** The three lines a phase prints before it looks its agent up. *)
Definition phase_banner (s : stage) : list string :=
  [nl +:+ str_mul "=" 80; title s; str_mul "=" 80].


(** The outputs [o] stored over a mapping [d], stage after stage. *)
Definition store_all (o : stage -> string) (d : dict) : dict :=
  foldl (fun d s => <[stage_key s := o s]> d) d stages.

(** Everything written to the summary file, in order. *)
Definition summary_chunks (env : Env) (self : OutputManager) : list string :=
  [ "EXECUTIVE SUMMARY" +:+ nl;
    str_mul "=" 80 +:+ nl;
    "AI-Powered Interview Platform - Product Plan" +:+ nl;
    "Date: " +:+ strftime env "%Y-%m-%d %H:%M:%S" +:+ nl +:+ nl;
    "WORKFLOW PHASES COMPLETED:" +:+ nl;
    "✓ Market Research & Competitive Analysis" +:+ nl;
    "✓ Market Gap & Opportunity Identification" +:+ nl;
    "✓ Product Blueprint Creation" +:+ nl;
    "✓ Technical Feasibility Assessment" +:+ nl;
    "✓ Strategic Review & Recommendations" +:+ nl +:+ nl;
    "KEY DELIVERABLES:" +:+ nl;
    "1. Competitive landscape analysis" +:+ nl;
    "2. Three identified market opportunities" +:+ nl;
    "3. Product features and user journey" +:+ nl;
    "4. Technical feasibility assessment" +:+ nl;
    "5. Strategic recommendations and next steps" +:+ nl +:+ nl;
    "All outputs saved in workflow_outputs_" +:+ timestamp self +:+ ".txt" +:+ nl ].

(** The computation returns no other value than [b]. *)
Definition returns_only {A : Type} (b : A) (c : M world A) : Prop :=
  forall w a w', c w = (Ok a, w') -> a = b.

(** The agents dict once the five agents have been created. *)
Definition all_agents : dict :=
  <["reviewer" := reviewer_system_message]>
    (<["technical" := technical_system_message]>
       (<["blueprint" := blueprint_system_message]>
          (<["analysis" := analysis_system_message]>
             (<["research" := research_system_message]> ∅)))).

(** The manager that [main] builds from the first configuration [c], and
    the world in which it starts the workflow. *)
Definition main_manager (env : Env) (w : world) (c : dict) : InterviewPlatformAgents :=
  {| config_list := get_config_list env;
     agents := fresh (dom (heap w));
     conversation_history := [];
     agents_client := OpenAI env (default "" (c !! "api_key")) (default "" (c !! "api_base"));
     agents_model := default "" (c !! "model") |}.

Definition main_ready (env : Env) (w : world) : world :=
  World (<[fresh (dom (heap w)) := all_agents]> (heap w))
        (stdout w ++ [ "Validating configuration..."; get_summary env;
                       "Initializing agents...";
                       "✓ ResearchAgent created"; "✓ AnalysisAgent created";
                       "✓ BlueprintAgent created"; "✓ TechnicalAgent created";
                       "✓ ReviewerAgent created"; nl +:+ "Initiating workflow..." ])
        (files w) (requests w) (trace w).

(** The output manager of [main]. *)
Definition main_output_manager (env : Env) : OutputManager :=
  {| output_dir := OUTPUT_DIR env; timestamp := strftime env "%Y%m%d_%H%M%S" |}.

(** The world [main] leaves after a run that returned the mapping [l]. *)
Definition main_finished (env : Env) (l : loc) (w : world) : world :=
  let om := main_output_manager env in
  World (heap w)
        (stdout w ++ [ nl +:+ "Saving outputs...";
                       nl +:+ str_mul "=" 80;
                       "WORKFLOW COMPLETED SUCCESSFULLY";
                       str_mul "=" 80;
                       "Full outputs saved to: " +:+ output_path om;
                       "Summary saved to: " +:+ summary_path om;
                       "End Time: " +:+ strftime env "%Y-%m-%d %H:%M:%S" ])
        (<[summary_path om := written (summary_chunks env om)]>
           (<[output_path om := written (report_chunks env (read_dict l w))]> (files w)))
        (requests w) (trace w).

(** The lines the exception handler of [main] prints. *)
Definition handler_lines (env : Env) (e : exn) : list string :=
  [ error_line env e;
    "Please ensure:";
    "  1. OPENAI_API_KEY is set in ../.env";
    "  2. pyautogen is installed: pip install -r requirements.txt";
    "  3. Parent directory .env file exists and is properly configured" ].

(** What [InterviewPlatformAgents.__init__] raises on a configuration list
    it cannot use. *)
Definition config_error (config_list : list dict) : option exn :=
  match config_list with
  | [] => Some IndexError
  | config :: _ =>
      if bool_decide (config !! "api_key" = None) then Some (KeyError "api_key")
      else if bool_decide (config !! "api_base" = None) then Some (KeyError "api_base")
      else if bool_decide (config !! "model" = None) then Some (KeyError "model")
      else None
  end.

(** The world after the handler of [main] has printed its lines. *)
Definition gave_up (env : Env) (e : exn) (w : world) : world :=
  World (heap w) (stdout w ++ handler_lines env e) (files w) (requests w) (trace w).

(** The world after [main] has announced that it saves the outputs. *)
Definition main_saving (w : world) : world :=
  World (heap w) (stdout w ++ [nl +:+ "Saving outputs..."]) (files w) (requests w)
        (trace w).

End MainRun.

(** ** The specification's sentences, read on one run *)

Module Stated.

Import Autogen Workflow Report.

(** Every stage has a non-empty output in the mapping. *)
Definition all_outputs_nonempty (d : dict) : Prop :=
  forall s, exists out, d !! stage_key s = Some out /\ out <> "".

(** A prompt is rendered from the outputs of all the stages before it. *)
Definition rendered_with_all_earlier (tr : list (event * dict)) : Prop :=
  forall s inputs prompt snap,
    (EvRender s inputs prompt, snap) ∈ tr ->
    inputs = (fun s' => default "" (snap !! stage_key s')) <$> take (stage_index s) stages.

(** No replacement text is written for a stage without output. *)
Definition no_replacement_text (d : dict) (text : string) : Prop :=
  forall s, d !! stage_key s = None -> str_in (placeholder s) text = false.

End Stated.

(** ** Sample environments and clients *)

Module Sample.

Import Autogen Workflow Openai.

Definition replies : list string := ["R1"; "A1"; "B1"; "T1"; "V1"].

(** Answers the five calls with [R1] .. [V1]. *)
Definition echo_client : client :=
  fun n _ => Completion (nth n replies "").

(** Raises a transient error from the first call, then answers as
    [echo_client]. *)
Definition flaky_client : client :=
  fun n _ =>
    match n with
    | O => Failure TransientError
    | S k => Completion (nth k replies "")
    end.

(** Answers every call with the empty string. *)
Definition silent_client : client :=
  fun _ _ => Completion "".

(** Answers the first call and rejects the second. *)
Definition halting_client : client :=
  fun n _ => if Nat.eqb n 1 then Failure FatalError else Completion (nth n replies "").

Definition env_with (c : client) : Env :=
  {| AGENT_TEMPERATURE := QArith_base.Qmake 7 10;
     AGENT_MAX_TOKENS := 2000;
     OUTPUT_DIR := "outputs";
     validate_setup := true;
     get_summary := "Configuration summary";
     get_config_list :=
       [ {[ "api_key" := "sk-test"; "api_base" := "https://api.example/v1";
            "model" := "gpt-4" ]} ];
     OpenAI := fun _ _ => c;
     strftime := fun _ => "20260101_000000";
     str_exn := fun e =>
       match e with
       | APIError TransientError => "rate limit"
       | APIError FatalError => "authentication"
       | _ => "error"
       end;
     can_open := fun _ => true |}.

Definition no_agents : InterviewPlatformAgents :=
  {| config_list := [];
     agents := 1%positive;
     conversation_history := [];
     agents_client := silent_client;
     agents_model := "" |}.

(** The manager and the world that [main] has when it builds the workflow. *)
Definition manager (c : client) : InterviewPlatformAgents :=
  match setup (env_with c) initial_world with
  | (Ok m, _) => m
  | (Raise _, _) => no_agents
  end.

Definition ready (c : client) : world :=
  (setup (env_with c) initial_world).2.

Definition outcome (c : client) : result loc * world :=
  run_workflow (env_with c) (manager c) (ready c).

(** The first request of a sample run. *)
Definition first_request (c : client) : request :=
  phase_request (env_with c) (fresh_workflow (manager c) (ready c))
                research_system_message initial_message.

(** The outputs a run leaves when the model rejects the second call, and
    a manager that writes them. *)
Definition halted_outputs : loc := fresh (dom (heap (ready halting_client))).

Definition sample_output_manager : OutputManager :=
  {| output_dir := "outputs"; timestamp := "20260101_000000" |}.

(** A network that answers the first attempt of the first call with a
    transient failure and every other attempt with the reply of
    [echo_client]. *)
Definition flaky_net : network :=
  fun i j _ =>
    if Nat.eqb i 0 && Nat.eqb j 0 then Rejected TransientError
    else Answered (nth i replies "").

(** The client that the script builds, on that network. *)
Definition retrying_client : client := default_client flaky_net.

(** The first configuration of [env_with]. *)
Definition sample_config : dict :=
  {[ "api_key" := "sk-test"; "api_base" := "https://api.example/v1";
     "model" := "gpt-4" ]}.

(** [env_with echo_client] with another configuration list and other
    files that can be opened. *)
Definition env_where (configs : list dict) (openable : string -> bool) : Env :=
  {| AGENT_TEMPERATURE := QArith_base.Qmake 7 10;
     AGENT_MAX_TOKENS := 2000;
     OUTPUT_DIR := "outputs";
     validate_setup := true;
     get_summary := "Configuration summary";
     get_config_list := configs;
     OpenAI := fun _ _ => echo_client;
     strftime := fun _ => "20260101_000000";
     str_exn := fun _ => "error";
     can_open := openable |}.

End Sample.

(** ** Vocabulary for the travel planner *)

Module Travel.

Import Crewai.

(** The city in which hotels are searched, by destination in lower case. *)
Definition hotel_cities : list (string * string) :=
  [("iceland", "Reykjavik"); ("france", "Paris"); ("japan", "Tokyo")].

Fixpoint assoc (k : string) (l : list (string * string)) : option string :=
  match l with
  | [] => None
  | (k', v) :: l' => if String.eqb k k' then Some v else assoc k l'
  end.

Definition hotel_location (destination : string) : string :=
  default destination (assoc (lower destination) hotel_cities).

(** A sample [int]: decimal digits only. *)
Fixpoint digits (s : string) (acc : Z) : option Z :=
  match s with
  | EmptyString => Some acc
  | String c s' =>
      let n := nat_of_ascii c in
      if Nat.leb 48 n && Nat.leb n 57
      then digits s' (10 * acc + Z.of_nat (n - 48))
      else None
  end.

Definition int_digits (s : string) : option Z :=
  match s with
  | EmptyString => None
  | _ => digits s 0
  end.

(** The keyword arguments the command line stands for, given the parsed
    number of travelers. *)
Definition kwargs_of (argv : list string) (n : Z) : kwargs :=
  {| destination := default "Iceland" (argv !! 1);
     trip_duration := default "5 days" (argv !! 2);
     trip_dates := default "January 15-20, 2026" (argv !! 4);
     departure_city := default "New York" (argv !! 3);
     travelers := n;
     budget_preference := default "mid-range" (argv !! 6) |}.

End Travel.

(** ** Vocabulary for the travel planner's [main] *)

Module Planner.

Import Crewai CrewaiMain.

(** [os.environ] once [main] has set the variables crewai reads. *)
Definition planned_environ (cfg : Config) (en : gmap string string) : gmap string string :=
  let en := <["OPENAI_API_BASE" := API_BASE cfg]> (<["OPENAI_API_KEY" := API_KEY cfg]> en) in
  if USE_GROQ cfg then <["OPENAI_MODEL_NAME" := OPENAI_MODEL cfg]> en else en.

(** The crew and the inputs that [main] builds from its arguments. *)
Definition travel_crew (destination trip_duration trip_dates departure_city : string)
  : Crew :=
  let flight_agent := create_flight_agent destination trip_dates in
  let hotel_agent := create_hotel_agent destination trip_dates in
  let itinerary_agent := create_itinerary_agent destination trip_duration in
  let transportation_agent := create_transportation_agent destination in
  let budget_agent := create_budget_agent destination in
  {| agents := [flight_agent; hotel_agent; itinerary_agent; transportation_agent;
                budget_agent];
     tasks := [ create_flight_task flight_agent destination trip_dates departure_city;
                create_hotel_task hotel_agent destination trip_dates;
                create_itinerary_task itinerary_agent destination trip_duration trip_dates;
                create_transportation_task transportation_agent destination trip_duration;
                create_budget_task budget_agent destination trip_duration ];
     crew_verbose := true;
     process := "sequential" |}.

Definition travel_inputs (destination trip_duration trip_dates departure_city : string)
    (travelers : Z) (budget_preference : string) : inputs :=
  {| trip_destination := destination;
     inputs_trip_duration := trip_duration;
     inputs_trip_dates := trip_dates;
     inputs_departure_city := departure_city;
     inputs_travelers := travelers;
     inputs_budget_preference := budget_preference |}.

(** The file [main] writes its report to. *)
Definition report_path (cfg : Config) (destination : string) : string :=
  script_dir_div cfg ("crewai_output_" +:+ lower destination +:+ ".txt").

(** What the library answers to the call that [main] makes in [w]. *)
Definition kickoff_reply (cfg : Config)
    (destination trip_duration trip_dates departure_city : string) (travelers : Z)
    (budget_preference : string) (w : world) : string + string :=
  kickoff cfg (planned_environ cfg (environ w))
          (travel_crew destination trip_duration trip_dates departure_city)
          (travel_inputs destination trip_duration trip_dates departure_city travelers
                         budget_preference).

(** The log of calls after the one call of [main]. *)
Definition kickoffs_after (cfg : Config)
    (destination trip_duration trip_dates departure_city : string) (travelers : Z)
    (budget_preference : string) (w : world)
  : list (gmap string string * Crew * inputs) :=
  kickoffs w ++
  [(planned_environ cfg (environ w),
    travel_crew destination trip_duration trip_dates departure_city,
    travel_inputs destination trip_duration trip_dates departure_city travelers
                  budget_preference)].

End Planner.

(** ** What a computation may do to the files *)

Module Effects.

Import Autogen.

(** The computation leaves the files as they are, however it ends. *)
Definition keeps_files {A : Type} (c : M world A) : Prop :=
  forall w r w', c w = (r, w') -> files w' = files w.

(** The computation never ends with an error of the model API. *)
Definition no_api_error {A : Type} (c : M world A) : Prop :=
  forall w e w', c w <> (Raise (APIError e), w').

(** When the computation ends with an error of the model API, it has left
    the files as they were. *)
Definition api_error_keeps_files {A : Type} (c : M world A) : Prop :=
  forall w e w', c w = (Raise (APIError e), w') -> files w' = files w.

End Effects.

(** * Properties of the workflow *)

Module WorkflowFacts.

Import Autogen Workflow.

Lemma dom_foldl_insert {A} (f g : A -> string) (l : list A) (d0 : dict) :
  dom (foldl (fun d s => <[f s := g s]> d) d0 l) = list_to_set (f <$> l) ∪ dom d0.
Proof.
  revert d0. induction l as [|a l IH]; intros d0; cbn [foldl fmap list_fmap list_to_set].
  - set_solver.
  - rewrite IH, dom_insert_L. set_solver.
Qed.

Section Phases.

Context (env : Env).

Lemma research_is_phase self :
  initiate_research_phase env self = phase env self Research [] initial_message.
Proof. reflexivity. Qed.

Lemma analysis_is_phase self r :
  conduct_analysis_phase env self r = phase env self Analysis [r] (analysis_message r).
Proof. reflexivity. Qed.

Lemma blueprint_is_phase self r a :
  create_blueprint_phase env self r a =
  phase env self Blueprint [r; a] (blueprint_message r a).
Proof. reflexivity. Qed.

Lemma technical_is_phase self b :
  conduct_technical_assessment_phase env self b =
  phase env self Technical [b] (technical_message b).
Proof. reflexivity. Qed.

Lemma review_is_phase self b t :
  conduct_review_phase env self b t =
  phase env self Review [b; t] (review_message b t).
Proof. reflexivity. Qed.

Ltac unfold_effects :=
  unfold print, emit, dict_getitem, dict_setitem, chat_completions_create, getitem,
    raise, set_heap, read_dict, mbind, M_bind, mret, M_ret in *;
  cbn [heap stdout files requests trace] in *.

Lemma phase_spec self s inputs prompt sm w :
  read_dict (agents (agents_manager self)) w !! agent_key s = Some sm ->
  phase env self s inputs prompt w =
  match agents_client (agents_manager self) (length (requests w))
                      (phase_request env self sm prompt) with
  | Completion out => (Ok out, phase_done env self s inputs prompt sm out w)
  | Failure e => (Raise (APIError e), phase_failed env self s inputs prompt sm w)
  end.
Proof.
  intros Hsm. unfold phase, phase_done, phase_failed. unfold_effects.
  rewrite Hsm. cbn [heap stdout files requests trace].
  destruct (agents_client _ _ _) as [out|e]; cbn [heap stdout files requests trace].
  - rewrite lookup_insert_eq. cbn [default]. rewrite <- !app_assoc. reflexivity.
  - rewrite <- !app_assoc. reflexivity.
Qed.

Lemma phase_keyerror self s inputs prompt w :
  read_dict (agents (agents_manager self)) w !! agent_key s = None ->
  exists w', phase env self s inputs prompt w = (Raise (KeyError (agent_key s)), w') /\
             heap w' = heap w /\ files w' = files w /\ requests w' = requests w /\
             trace w' = trace w.
Proof.
  intros Hsm. eexists. unfold phase. unfold_effects.
  rewrite Hsm. cbn [heap stdout files requests trace]. done.
Qed.

Lemma read_dict_done self s inputs prompt sm out w l :
  read_dict l (phase_done env self s inputs prompt sm out w) =
  if decide (outputs self = l) then <[stage_key s := out]> (read_dict l w)
  else read_dict l w.
Proof.
  unfold read_dict, phase_done. cbn [heap].
  rewrite lookup_insert. case_decide; subst; done.
Qed.

Lemma length_requests_done self s inputs prompt sm out w :
  length (requests (phase_done env self s inputs prompt sm out w)) =
  S (length (requests w)).
Proof. unfold phase_done. cbn [requests]. rewrite length_app. simpl. lia. Qed.

Lemma sys_msg_lookup m w s :
  registered m w -> read_dict (agents m) w !! agent_key s = Some (sys_msg m w s).
Proof. intros H. unfold sys_msg. destruct (H s) as [x ->]. done. Qed.

Lemma registered_done self s inputs prompt sm out w m :
  agents m <> outputs self -> registered m w ->
  registered m (phase_done env self s inputs prompt sm out w).
Proof.
  intros Hne H s'. rewrite read_dict_done. rewrite decide_False by done. apply H.
Qed.

Lemma sys_msg_done self s inputs prompt sm out w m s' :
  agents m <> outputs self ->
  sys_msg m (phase_done env self s inputs prompt sm out w) s' = sys_msg m w s'.
Proof.
  intros Hne. unfold sys_msg. rewrite read_dict_done. rewrite decide_False by done. done.
Qed.

Lemma banner_spec {A} (k : M world A) w :
  (print (nl +:+ str_mul "=" 80);;
   print "AI-POWERED INTERVIEW PLATFORM - PRODUCT PLANNING WORKFLOW";;
   print (str_mul "=" 80);;
   print ("Start Time: " +:+ strftime env "%Y-%m-%d %H:%M:%S");;
   k) w = k (banner env w).
Proof.
  unfold banner, print, mbind, M_bind. cbn [heap stdout files requests trace].
  rewrite <- !app_assoc. reflexivity.
Qed.

Lemma phase_step {A} self s inputs prompt w wb (k : string -> M world A) :
  registered (agents_manager self) wb ->
  (forall s, sys_msg (agents_manager self) wb s = sys_msg (agents_manager self) w s) ->
  (phase env self s inputs prompt ≫= k) wb =
  match agents_client (agents_manager self) (length (requests wb))
          (phase_request env self (sys_msg (agents_manager self) w s) prompt) with
  | Completion out =>
      k out (phase_done env self s inputs prompt (sys_msg (agents_manager self) w s) out wb)
  | Failure e =>
      (Raise (APIError e),
       phase_failed env self s inputs prompt (sys_msg (agents_manager self) w s) wb)
  end.
Proof.
  intros Hreg Hs. unfold mbind at 1, M_bind at 1.
  rewrite (phase_spec _ _ _ _ _ _ (sys_msg_lookup _ _ s Hreg)), Hs.
  by destruct (agents_client _ _ _).
Qed.

Lemma execute_workflow_spec self w :
  registered (agents_manager self) w ->
  agents (agents_manager self) <> outputs self ->
  execute_workflow env self w = workflow_outcome env self w.
Proof.
  intros Hreg Hne.
  unfold execute_workflow, workflow_outcome.
  rewrite banner_spec, research_is_phase.
  assert (Hs : forall s, sys_msg (agents_manager self) (banner env w) s
                         = sys_msg (agents_manager self) w s) by reflexivity.
  rewrite (phase_step _ _ _ _ w) by done.
  change (length (requests (banner env w))) with (length (requests w)).
  destruct (agents_client _ _ _) as [r|e]; [|reflexivity].
  rewrite analysis_is_phase.
  rewrite (phase_step _ _ _ _ w);
    [| by repeat apply registered_done
     | by intros; rewrite ?sys_msg_done by done ].
  rewrite !length_requests_done.
  change (length (requests (banner env w))) with (length (requests w)).
  destruct (agents_client _ _ _) as [a|e]; [|reflexivity].
  rewrite blueprint_is_phase.
  rewrite (phase_step _ _ _ _ w);
    [| by repeat apply registered_done
     | by intros; rewrite ?sys_msg_done by done ].
  rewrite !length_requests_done.
  change (length (requests (banner env w))) with (length (requests w)).
  destruct (agents_client _ _ _) as [b|e]; [|reflexivity].
  rewrite technical_is_phase.
  rewrite (phase_step _ _ _ _ w);
    [| by repeat apply registered_done
     | by intros; rewrite ?sys_msg_done by done ].
  rewrite !length_requests_done.
  change (length (requests (banner env w))) with (length (requests w)).
  destruct (agents_client _ _ _) as [t|e]; [|reflexivity].
  rewrite review_is_phase.
  rewrite (phase_step _ _ _ _ w);
    [| by repeat apply registered_done
     | by intros; rewrite ?sys_msg_done by done ].
  rewrite !length_requests_done.
  change (length (requests (banner env w))) with (length (requests w)).
  destruct (agents_client _ _ _) as [v|e]; reflexivity.
Qed.

Lemma registered_allocated m w : registered m w -> agents m ∈ dom (heap w).
Proof.
  intros H. destruct (H Research) as [x Hx]. unfold read_dict in Hx.
  apply elem_of_dom. destruct (heap w !! agents m); [done|].
  simpl in Hx. by rewrite lookup_empty in Hx.
Qed.

Lemma registered_not_fresh m w : registered m w -> agents m <> fresh (dom (heap w)).
Proof.
  intros H Heq. apply registered_allocated in H. rewrite Heq in H.
  by apply is_fresh in H.
Qed.

Lemma read_dict_fresh_world w l :
  read_dict l (fresh_world w) =
  if decide (fresh (dom (heap w)) = l) then ∅ else read_dict l w.
Proof.
  unfold read_dict, fresh_world, set_heap. cbn [heap].
  rewrite lookup_insert. case_decide; subst; done.
Qed.

Lemma sys_msg_fresh_world m w s :
  registered m w -> sys_msg m (fresh_world w) s = sys_msg m w s.
Proof.
  intros Hreg. unfold sys_msg.
  rewrite read_dict_fresh_world, decide_False; [done|].
  intros Heq. by apply (registered_not_fresh _ _ Hreg).
Qed.

Lemma run_workflow_spec m w :
  registered m w ->
  run_workflow env m w = workflow_outcome env (fresh_workflow m w) (fresh_world w).
Proof.
  intros Hreg. pose proof (registered_not_fresh _ _ Hreg) as Hne.
  unfold run_workflow, InterviewPlatformWorkflow_init, dict_new.
  unfold mbind at 1 2, M_bind at 1 2. cbn beta iota. unfold mret at 1, M_ret at 1.
  cbn beta iota.
  apply execute_workflow_spec; cbn [agents_manager outputs]; [|done].
  intros s. change (set_heap _ w) with (fresh_world w).
  rewrite read_dict_fresh_world, decide_False by done. apply Hreg.
Qed.

Lemma trace_done self s inputs prompt sm out w :
  trace (phase_done env self s inputs prompt sm out w) =
  trace w ++ [(EvRender s inputs prompt, read_dict (outputs self) w);
              (EvCall s (phase_request env self sm prompt), read_dict (outputs self) w);
              (EvReply s out, read_dict (outputs self) w);
              (EvStore s out, <[stage_key s := out]> (read_dict (outputs self) w))].
Proof. reflexivity. Qed.

Lemma trace_failed self s inputs prompt sm w :
  trace (phase_failed env self s inputs prompt sm w) =
  trace w ++ [(EvRender s inputs prompt, read_dict (outputs self) w);
              (EvCall s (phase_request env self sm prompt), read_dict (outputs self) w)].
Proof. reflexivity. Qed.

Lemma requests_done self s inputs prompt sm out w :
  requests (phase_done env self s inputs prompt sm out w) =
  requests w ++ [phase_request env self sm prompt].
Proof. reflexivity. Qed.

Lemma requests_failed self s inputs prompt sm w :
  requests (phase_failed env self s inputs prompt sm w) =
  requests w ++ [phase_request env self sm prompt].
Proof. reflexivity. Qed.

Lemma heap_done self s inputs prompt sm out w l :
  l <> outputs self ->
  heap (phase_done env self s inputs prompt sm out w) !! l = heap w !! l.
Proof. intros Hne. unfold phase_done. cbn [heap]. by rewrite lookup_insert_ne. Qed.

Lemma heap_fresh_world w l :
  l <> fresh (dom (heap w)) -> heap (fresh_world w) !! l = heap w !! l.
Proof. intros Hne. unfold fresh_world, set_heap. cbn [heap]. by rewrite lookup_insert_ne. Qed.

Lemma read_dict_banner l w : read_dict l (banner env w) = read_dict l w.
Proof. reflexivity. Qed.

Lemma read_dict_failed self s inputs prompt sm l w :
  read_dict l (phase_failed env self s inputs prompt sm w) = read_dict l w.
Proof. reflexivity. Qed.

Lemma heap_failed self s inputs prompt sm w :
  heap (phase_failed env self s inputs prompt sm w) = heap w.
Proof. reflexivity. Qed.

Ltac run_cases H :=
  unfold workflow_outcome in H; cbv zeta in H;
  repeat match type of H with
         | match ?c with Completion _ => _ | Failure _ => _ end = _ =>
             let E := fresh "Ereply" in destruct c eqn:E
         end;
  inversion H; subst; clear H.

Ltac norm_run :=
  unfold new_trace, new_requests;
  repeat first [ rewrite trace_done | rewrite trace_failed
               | rewrite requests_done | rewrite requests_failed ];
  change (trace (banner env (fresh_world ?w))) with (trace w);
  change (requests (banner env (fresh_world ?w))) with (requests w);
  rewrite <- ?app_assoc; rewrite ?drop_app_length; cbn [app];
  cbn [outputs fresh_workflow];
  repeat first [ rewrite read_dict_done | rewrite read_dict_banner
               | rewrite read_dict_failed
               | rewrite read_dict_fresh_world
               | rewrite decide_True by done ].

Ltac prep_run Hreg Hrun :=
  rewrite run_workflow_spec in Hrun by done;
  unfold workflow_outcome in Hrun;
  cbn [agents_manager fresh_workflow] in Hrun;
  rewrite !(fun s => sys_msg_fresh_world _ _ s Hreg) in Hrun;
  change (length (requests (fresh_world ?w))) with (length (requests w)) in Hrun;
  cbv zeta in Hrun;
  repeat match type of Hrun with
         | match ?c with Completion _ => _ | Failure _ => _ end = _ =>
             let E := fresh "Ereply" in destruct c eqn:E
         end;
  inversion Hrun; subst; clear Hrun.

Ltac solve_reply :=
  unfold reply_of, request_of, inputs_of; cbn [stage_index phase_inputs fmap list_fmap render outs5];
  rewrite ?Nat.add_0_r, ?(Nat.add_comm (length _)); cbn [Nat.add]; eassumption.

Ltac solve_shape last :=
  unfold run_shape; split_and!;
  [ intros s Hs; destruct s; cbn [stage_index] in Hs; try lia; solve_reply
  | norm_run; reflexivity
  | norm_run; reflexivity
  | norm_run; reflexivity
  | cbn [fresh_workflow outputs]; rewrite ?heap_failed;
    first [ unfold phase_done; cbn [heap]; rewrite lookup_insert_eq; by eexists
          | unfold banner, fresh_world, set_heap; cbn [heap];
            rewrite lookup_insert_eq; by eexists ]
  | intros l Hl; cbn [fresh_workflow];
    rewrite ?heap_failed, ?heap_done by done; try reflexivity; by apply heap_fresh_world
  | reflexivity
  | last ].

Ltac completed := left; split; reflexivity.
Ltac failed_at s :=
  right; exists s; eexists; split_and!; [reflexivity | solve_reply | reflexivity].

Lemma run_has_shape m w res w' :
  registered m w ->
  run_workflow env m w = (res, w') ->
  exists o k, run_shape env m w res w' o k.
Proof.
  intros Hreg Hrun. prep_run Hreg Hrun.
  - exists (outs5 text text0 text1 text2 text3), 5. solve_shape completed.
  - exists (outs5 text text0 text1 text2 ""), 4. solve_shape ltac:(failed_at Review).
  - exists (outs5 text text0 text1 "" ""), 3. solve_shape ltac:(failed_at Technical).
  - exists (outs5 text text0 "" "" ""), 2. solve_shape ltac:(failed_at Blueprint).
  - exists (outs5 text "" "" "" ""), 1. solve_shape ltac:(failed_at Analysis).
  - exists (outs5 "" "" "" "" ""), 0. solve_shape ltac:(failed_at Research).
Qed.

Section Canonical.

Context (m : InterviewPlatformAgents) (w : world) (o : stage -> string).

Lemma full_trace_unfold :
  full_trace env m w o =
  stage_events env m w o Research ++ stage_events env m w o Analysis ++
  stage_events env m w o Blueprint ++ stage_events env m w o Technical ++
  stage_events env m w o Review.
Proof. unfold full_trace, stages. cbn [mbind list_bind]. by rewrite app_nil_r. Qed.

Ltac expand_trace :=
  rewrite full_trace_unfold in *;
  cbn [stage_events app dict_upto stage_index take foldl stages] in *.

Lemma full_trace_waits i ev snap s :
  full_trace env m w o !! i = Some (ev, snap) ->
  is_start ev = true ->
  stage_index s < stage_index (event_stage ev) ->
  exists j snap',
    j < i /\ full_trace env m w o !! j = Some (EvStore s (o s), snap') /\
    snap !! stage_key s = Some (o s).
Proof.
  intros Hi Hst Hlt.
  exists (4 * stage_index s + 3), (<[stage_key s := o s]> (dict_upto o (stage_index s))).
  expand_trace.
  do 20 (destruct i as [|i];
         [ cbn [lookup list_lookup] in Hi; inversion Hi; subst; clear Hi;
           cbn [is_start event_stage stage_index] in *; try discriminate;
           destruct s; cbn [stage_index] in *; try lia;
           (split_and!; [lia | reflexivity | by simplify_map_eq])
         | ]).
  by destruct i.
Qed.

Lemma full_trace_length : length (full_trace env m w o) = 20.
Proof. reflexivity. Qed.

Lemma full_trace_stage i ev snap :
  full_trace env m w o !! i = Some (ev, snap) ->
  stage_index (event_stage ev) = i / 4.
Proof.
  intros Hi. expand_trace.
  do 20 (destruct i as [|i];
         [ cbn [lookup list_lookup] in Hi; inversion Hi; subst; reflexivity | ]).
  by destruct i.
Qed.

Lemma attempts_take_full n s :
  attempts s (take n (full_trace env m w o)) =
  if decide (4 * stage_index s + 1 < n) then 1 else 0.
Proof.
  expand_trace.
  do 21 (destruct n as [|n]; [ by destruct s | ]).
  by destruct s.
Qed.

Lemma full_trace_render i s inputs prompt snap :
  full_trace env m w o !! i = Some (EvRender s inputs prompt, snap) ->
  i = 4 * stage_index s /\ snap = dict_upto o (stage_index s) /\
  inputs = inputs_of o s /\ prompt = render s inputs.
Proof.
  intros Hi. expand_trace.
  do 20 (destruct i as [|i];
         [ cbn [lookup list_lookup] in Hi; inversion Hi; subst; done | ]).
  by destruct i.
Qed.

Lemma full_trace_reply s :
  full_trace env m w o !! (4 * stage_index s + 2) =
  Some (EvReply s (o s), dict_upto o (stage_index s)).
Proof. expand_trace. by destruct s. Qed.

Lemma full_requests_lookup s :
  full_requests env m w o !! stage_index s = Some (request_of env m w o s).
Proof. by destruct s. Qed.

Lemma full_requests_inv i r :
  full_requests env m w o !! i = Some r ->
  exists s, stage_index s = i /\ r = request_of env m w o s.
Proof.
  intros Hi. unfold full_requests, stages in Hi.
  destruct i as [|[|[|[|[|i]]]]];
    cbn [fmap list_fmap lookup list_lookup] in Hi; inversion Hi;
    [ exists Research | exists Analysis | exists Blueprint | exists Technical
    | exists Review ]; done.
Qed.

Lemma dict_upto_lookup k s :
  dict_upto o k !! stage_key s = if decide (stage_index s < k) then Some (o s) else None.
Proof.
  unfold dict_upto, stages.
  do 5 (destruct k as [|k];
        [ cbn [take foldl]; destruct s; cbn [stage_key stage_index];
          case_decide; try lia; by simplify_map_eq | ]).
  cbn [take foldl]; rewrite take_nil; cbn [foldl];
    destruct s; cbn [stage_key stage_index]; case_decide; try lia; by simplify_map_eq.
Qed.

Lemma dict_upto_dom k :
  dom (dict_upto o k) = list_to_set (stage_key <$> take k stages).
Proof.
  unfold dict_upto. rewrite dom_foldl_insert, dom_empty_L. set_solver.
Qed.

End Canonical.

Lemma stage_index_inj s1 s2 : stage_index s1 = stage_index s2 -> s1 = s2.
Proof. by destruct s1, s2. Qed.

Lemma stage_index_lt s : stage_index s < 5.
Proof. destruct s; cbn; lia. Qed.

Lemma run_workflow_unfold m w :
  run_workflow env m w = execute_workflow env (fresh_workflow m w) (fresh_world w).
Proof. reflexivity. Qed.

Lemma shape_bound m w res w' o k : run_shape env m w res w' o k -> k <= 5.
Proof.
  intros (_ & _ & _ & _ & _ & _ & _ & [[-> _]|(s & e & <- & _)]); [lia|].
  destruct s; cbn; lia.
Qed.

End Phases.
End WorkflowFacts.

(** * Properties of the client *)

Module OpenaiFacts.

Import Autogen Workflow Openai.
Import WorkflowFacts.

Lemma send_with_retries_bound send t rem :
  t < (send_with_retries send t rem).2 <= S (t + rem).
Proof.
  revert t. induction rem as [|rem IH]; intros t; cbn [send_with_retries].
  - destruct (send t) as [text|[|]]; cbn [snd]; lia.
  - destruct (send t) as [text|[|]]; cbn [snd]; try lia.
    specialize (IH (S t)). lia.
Qed.

Lemma send_with_retries_again send t rem :
  send t = Rejected TransientError ->
  send_with_retries send t (S rem) = send_with_retries send (S t) rem.
Proof. intros H. cbn [send_with_retries]. by rewrite H. Qed.

Lemma round_trips_again net i r j :
  j < DEFAULT_MAX_RETRIES ->
  (forall j', j' <= j -> net i j' r = Rejected TransientError) ->
  S (S j) <= round_trips DEFAULT_MAX_RETRIES net i r.
Proof.
  unfold round_trips, DEFAULT_MAX_RETRIES. intros Hj Hbefore.
  destruct j as [|[|j]]; [| |lia].
  - rewrite send_with_retries_again by (apply Hbefore; lia).
    pose proof (send_with_retries_bound (fun j => net i j r) 1 1). lia.
  - rewrite !send_with_retries_again by (apply Hbefore; lia).
    pose proof (send_with_retries_bound (fun j => net i j r) 2 0). lia.
Qed.

Lemma round_trips_bound net i r :
  0 < round_trips DEFAULT_MAX_RETRIES net i r <= 3.
Proof.
  unfold round_trips. pose proof (send_with_retries_bound (fun j => net i j r) 0 2).
  unfold DEFAULT_MAX_RETRIES. lia.
Qed.

(** What the default client returns, by the responses to its three
    attempts. *)
Lemma default_client_exhausted net i r :
  (forall j, j < 3 -> net i j r = Rejected TransientError) ->
  default_client net i r = Failure TransientError /\
  round_trips DEFAULT_MAX_RETRIES net i r = 3.
Proof.
  intros H. unfold default_client, create, round_trips, DEFAULT_MAX_RETRIES.
  cbn [send_with_retries]. by rewrite !H by lia.
Qed.

Lemma default_client_settled net i r j :
  j < 3 ->
  (forall j', j' < j -> net i j' r = Rejected TransientError) ->
  net i j r <> Rejected TransientError ->
  default_client net i r =
    match net i j r with Answered text => Completion text | Rejected e => Failure e end /\
  round_trips DEFAULT_MAX_RETRIES net i r = S j.
Proof.
  intros Hj Hbefore Hnow.
  unfold default_client, create, round_trips, DEFAULT_MAX_RETRIES.
  destruct j as [|[|[|j]]]; [| | |lia]; cbn [send_with_retries];
    rewrite ?Hbefore by lia; by destruct (net i _ r) as [text|[|]].
Qed.

Section Trips.

Context (env : Env) (net : network) (m : InterviewPlatformAgents) (w : world).
Context (o : stage -> string).

Lemma trips_take_full n i s :
  trips_from net i s (take n (full_trace env m w o)) =
  if decide (4 * stage_index s + 1 < n)
  then round_trips DEFAULT_MAX_RETRIES net (stage_index s + i) (request_of env m w o s)
  else 0.
Proof.
  rewrite full_trace_unfold.
  cbn [stage_events app dict_upto stage_index take foldl stages].
  do 21 (destruct n as [|n]; [ by destruct s | ]).
  by destruct s.
Qed.

End Trips.

End OpenaiFacts.

(** * The claims about the workflow *)

Module WorkflowClaims.

Import Autogen Workflow Report Stated Sample Effects Openai.
Import WorkflowFacts OpenaiFacts.

Section Claims.

Context (env : Env).

(** C2.  In every run, when a phase renders its prompt or calls the model,
    the output of every earlier stage has been stored: it is in the
    [outputs] mapping at that moment and its store event comes before in the
    log.  The events of the log are ordered by stage. *)
Theorem stage_waits_for_earlier_outputs m w res w' :
  registered m w ->
  run_workflow env m w = (res, w') ->
  (forall i ev snap s,
     new_trace w w' !! i = Some (ev, snap) ->
     is_start ev = true ->
     stage_index s < stage_index (event_stage ev) ->
     exists j out snap',
       j < i /\ new_trace w w' !! j = Some (EvStore s out, snap') /\
       snap !! stage_key s = Some out) /\
  (forall i j ev ev' snap snap',
     i <= j ->
     new_trace w w' !! i = Some (ev, snap) ->
     new_trace w w' !! j = Some (ev', snap') ->
     stage_index (event_stage ev) <= stage_index (event_stage ev')).
Proof.
  intros Hreg Hrun.
  destruct (run_has_shape env _ _ _ _ Hreg Hrun) as (o & k & _ & Htr & _).
  rewrite Htr. split.
  - intros i ev snap s Hi Hst Hlt.
    apply lookup_take_Some in Hi as [Hi Hik].
    destruct (full_trace_waits env m w o i ev snap s Hi Hst Hlt)
      as (j & snap' & Hj & Hjl & Hs).
    exists j, (o s), snap'. split_and!; [done| |done].
    by rewrite lookup_take_lt by lia.
  - intros i j ev ev' snap snap' Hij Hi Hj.
    apply lookup_take_Some in Hi as [Hi _]. apply lookup_take_Some in Hj as [Hj _].
    rewrite (full_trace_stage env m w o _ _ _ Hi), (full_trace_stage env m w o _ _ _ Hj).
    by apply Nat.Div0.div_le_mono.
Qed.

(** C1.  The script calls [create] once per stage and the client, built
    with the default of the package, makes at most three round trips for
    it, never a fourth.  After a transient failure on the first or the
    second attempt the request is sent again; an answer within the three
    attempts is the output of the stage; three transient failures in a row
    end the run with that error, and no model call follows. *)
Theorem transient_failures_are_retried_up_to_three_attempts net m w res w' :
  registered m w ->
  agents_client m = default_client net ->
  run_workflow env m w = (res, w') ->
  (forall s, attempts s (new_trace w w') <= 1 /\
             stage_round_trips net w w' s <= 1 + DEFAULT_MAX_RETRIES) /\
  (forall s r,
     new_requests w w' !! stage_index s = Some r ->
     let i := length (requests w) + stage_index s in
     stage_round_trips net w w' s = round_trips DEFAULT_MAX_RETRIES net i r /\
     (forall j, j < DEFAULT_MAX_RETRIES ->
                (forall j', j' <= j -> net i j' r = Rejected TransientError) ->
                S (S j) <= stage_round_trips net w w' s) /\
     (forall j text,
        j < 1 + DEFAULT_MAX_RETRIES ->
        (forall j', j' < j -> net i j' r = Rejected TransientError) ->
        net i j r = Answered text ->
        stage_round_trips net w w' s = S j /\
        read_dict (fresh (dom (heap w))) w' !! stage_key s = Some text) /\
     ((forall j, j < 1 + DEFAULT_MAX_RETRIES -> net i j r = Rejected TransientError) ->
      res = Raise (APIError TransientError) /\
      stage_round_trips net w w' s = 1 + DEFAULT_MAX_RETRIES /\
      length (new_requests w w') = S (stage_index s) /\
      forall s', stage_index s < stage_index s' -> stage_round_trips net w w' s' = 0)).
Proof.
  intros Hreg Hclient Hrun.
  destruct (run_has_shape env _ _ _ _ Hreg Hrun) as (o & k & Hshape).
  pose proof (shape_bound env _ _ _ _ _ _ Hshape) as Hk.
  destruct Hshape as (Hrep & Htr & Hreq & Hdict & _ & _ & _ & Hres).
  unfold stage_round_trips. rewrite Htr, Hreq, Hdict. split.
  - intros s. rewrite attempts_take_full, trips_take_full. split.
    + repeat case_decide; lia.
    + pose proof (round_trips_bound net (stage_index s + length (requests w))
                    (request_of env m w o s)).
      change (1 + DEFAULT_MAX_RETRIES) with 3. repeat case_decide; lia.
  - intros s r Hi. cbv zeta. set (i := length (requests w) + stage_index s).
    apply lookup_take_Some in Hi as [Hi Hik].
    pose proof (full_requests_lookup env m w o s) as Hs. rewrite Hs in Hi.
    injection Hi as <-. pose proof (stage_index_lt s) as Hs5.
    assert (Hreply : reply_of env m w o s = default_client net i (request_of env m w o s)).
    { unfold reply_of. by rewrite Hclient. }
    assert (Htrips : trips_from net (length (requests w)) s
                       (take (if decide (k = 5) then 20 else 4 * k + 2)
                             (full_trace env m w o))
                     = round_trips DEFAULT_MAX_RETRIES net i (request_of env m w o s)).
    { rewrite trips_take_full, (Nat.add_comm (stage_index s)).
      repeat case_decide; try done; lia. }
    rewrite Htrips. split_and!.
    + done.
    + intros j Hj Hbefore. by apply round_trips_again.
    + intros j text Hj Hbefore Hnow.
      destruct (default_client_settled net i (request_of env m w o s) j)
        as [Hc Ht]; [done|done|by rewrite Hnow|].
      rewrite Hnow in Hc. split; [done|].
      rewrite dict_upto_lookup.
      destruct (decide (stage_index s < k)) as [Hlt|Hge].
      * f_equal. specialize (Hrep s Hlt). rewrite Hreply, Hc in Hrep. by injection Hrep.
      * exfalso. destruct Hres as [[-> _]|(s0 & e0 & Hs0 & Hf0 & _)]; [lia|].
        assert (s0 = s) as -> by (apply stage_index_inj; lia).
        rewrite Hreply, Hc in Hf0. discriminate.
    + intros Hall.
      destruct (default_client_exhausted net i (request_of env m w o s) Hall) as [Hc Ht].
      assert (stage_index s = k) as Hsk.
      { destruct (decide (stage_index s < k)) as [Hlt|Hge]; [|lia].
        specialize (Hrep s Hlt). rewrite Hreply, Hc in Hrep. discriminate. }
      destruct Hres as [[-> _]|(s0 & e0 & Hs0 & Hf0 & ->)]; [lia|].
      assert (s0 = s) as -> by (apply stage_index_inj; lia).
      rewrite Hreply, Hc in Hf0. injection Hf0 as <-.
      split_and!; [done|done| |].
      * rewrite length_take. unfold full_requests. rewrite length_fmap. cbn. lia.
      * intros s' Hlt. rewrite trips_take_full. repeat case_decide; lia.
Qed.

(** C4, as amended.  A run that returns has sent five requests; the mapping
    it returns has exactly the five stage names as keys; and for every stage
    the model answered the stage's request, the answer is in the log, and the
    mapping holds that answer - whatever it is - under the stage's name. *)
Theorem completed_run_outputs m w l w' :
  registered m w ->
  run_workflow env m w = (Ok l, w') ->
  length (new_requests w w') = 5 /\
  dom (read_dict l w') = list_to_set (stage_key <$> stages) /\
  forall s, exists r out snap,
    new_requests w w' !! stage_index s = Some r /\
    agents_client m (length (requests w) + stage_index s) r = Completion out /\
    new_trace w w' !! (4 * stage_index s + 2) = Some (EvReply s out, snap) /\
    read_dict l w' !! stage_key s = Some out.
Proof.
  intros Hreg Hrun.
  destruct (run_has_shape env _ _ _ _ Hreg Hrun)
    as (o & k & Hrep & Htr & Hreq & Hdict & _ & _ & _ & Hres).
  destruct Hres as [[-> Hl]|(s0 & e0 & _ & _ & ?)]; [|discriminate].
  injection Hl as ->. rewrite Htr, Hreq, Hdict. split_and!.
  - reflexivity.
  - by rewrite dict_upto_dom.
  - intros s. pose proof (stage_index_lt s) as Hs5.
    exists (request_of env m w o s), (o s), (dict_upto o (stage_index s)). split_and!.
    + rewrite lookup_take_lt by lia. apply full_requests_lookup.
    + by apply Hrep.
    + rewrite decide_True by done. rewrite lookup_take_lt by lia.
      apply full_trace_reply.
    + rewrite dict_upto_lookup. by rewrite decide_True.
Qed.

(** C5, as amended.  When a phase renders its prompt, the [outputs] mapping
    holds exactly the outputs of the earlier stages: its keys are their
    names and, under each, the text that the model returned for that stage
    and that the stage stored before.  The phase is called with the outputs
    of the stages that [phase_inputs] lists for it, all of them earlier
    stages, and its prompt is rendered from those arguments. *)
Theorem render_inputs_are_earlier_outputs m w res w' :
  registered m w ->
  run_workflow env m w = (res, w') ->
  forall i s inputs prompt snap,
    new_trace w w' !! i = Some (EvRender s inputs prompt, snap) ->
    dom snap = list_to_set (stage_key <$> take (stage_index s) stages) /\
    (forall s',
       stage_index s' < stage_index s ->
       exists j out snap' r,
         j < i /\
         new_trace w w' !! j = Some (EvStore s' out, snap') /\
         new_requests w w' !! stage_index s' = Some r /\
         agents_client m (length (requests w) + stage_index s') r = Completion out /\
         snap !! stage_key s' = Some out) /\
    Forall2 (fun s' x => snap !! stage_key s' = Some x) (phase_inputs s) inputs /\
    Forall (fun s' => stage_index s' < stage_index s) (phase_inputs s) /\
    prompt = render s inputs.
Proof.
  intros Hreg Hrun i s inputs prompt snap Hi.
  destruct (run_has_shape env _ _ _ _ Hreg Hrun) as (o & k & Hshape).
  pose proof (shape_bound env _ _ _ _ _ _ Hshape) as Hk.
  destruct Hshape as (Hrep & Htr & Hreq & _).
  rewrite Htr in Hi |- *. rewrite Hreq.
  apply lookup_take_Some in Hi as [Hi Hik].
  pose proof (full_trace_waits env m w o i (EvRender s inputs prompt) snap) as Hwait.
  specialize (fun s' => Hwait s' Hi eq_refl). cbn [event_stage] in Hwait.
  apply full_trace_render in Hi as (-> & -> & -> & ->).
  assert (stage_index s <= k) as Hsk by (case_decide; lia).
  split_and!; [apply dict_upto_dom| | | |done].
  - intros s' Hlt. destruct (Hwait s' Hlt) as (j & snap' & Hj & Hjl & Hsnap).
    exists j, (o s'), snap', (request_of env m w o s'). split_and!.
    + done.
    + by rewrite lookup_take_lt by lia.
    + rewrite lookup_take_lt by lia. apply full_requests_lookup.
    + apply Hrep. lia.
    + done.
  - unfold inputs_of.
    destruct s; cbn [phase_inputs fmap list_fmap]; repeat constructor;
      rewrite dict_upto_lookup; by rewrite decide_True by (cbn; lia).
  - destruct s; cbn [phase_inputs]; repeat constructor; cbn; lia.
Qed.

(** C7.  Two runs of the workflow on the same agents: the two workflow
    objects hold different [outputs] dicts, each run returns its own, the
    second run leaves the outputs of the first as they were, and a write
    into either mapping leaves the other unchanged. *)
Theorem runs_do_not_share_outputs m w wf1 wa r1 wb wf2 wc r2 wd :
  registered m w ->
  InterviewPlatformWorkflow_init m w = (Ok wf1, wa) ->
  execute_workflow env wf1 wa = (r1, wb) ->
  InterviewPlatformWorkflow_init m wb = (Ok wf2, wc) ->
  execute_workflow env wf2 wc = (r2, wd) ->
  outputs wf1 <> outputs wf2 /\
  (forall l, r1 = Ok l -> l = outputs wf1) /\
  (forall l, r2 = Ok l -> l = outputs wf2) /\
  read_dict (outputs wf1) wd = read_dict (outputs wf1) wb /\
  (forall k v, read_dict (outputs wf2) (dict_setitem (outputs wf1) k v wd).2
               = read_dict (outputs wf2) wd) /\
  (forall k v, read_dict (outputs wf1) (dict_setitem (outputs wf2) k v wd).2
               = read_dict (outputs wf1) wd).
Proof.
  intros Hreg Hi1 Hrun1 Hi2 Hrun2.
  assert (wf1 = fresh_workflow m w /\ wa = fresh_world w) as [-> ->].
  { unfold InterviewPlatformWorkflow_init, dict_new, mbind, M_bind, mret, M_ret in Hi1.
    by injection Hi1 as <- <-. }
  assert (wf2 = fresh_workflow m wb /\ wc = fresh_world wb) as [-> ->].
  { unfold InterviewPlatformWorkflow_init, dict_new, mbind, M_bind, mret, M_ret in Hi2.
    by injection Hi2 as <- <-. }
  rewrite <- run_workflow_unfold in Hrun1, Hrun2.
  destruct (run_has_shape env _ _ _ _ Hreg Hrun1)
    as (o1 & k1 & _ & _ & _ & _ & Halloc1 & Hframe1 & _ & Hres1).
  assert (Hreg' : registered m wb).
  { intros s. unfold read_dict. rewrite Hframe1; [apply Hreg|].
    by apply registered_not_fresh. }
  destruct (run_has_shape env _ _ _ _ Hreg' Hrun2)
    as (o2 & k2 & _ & _ & _ & _ & Halloc2 & Hframe2 & _ & Hres2).
  cbn [outputs fresh_workflow].
  assert (Hne : fresh (dom (heap w)) <> fresh (dom (heap wb))).
  { intros Heq. apply elem_of_dom in Halloc1. rewrite Heq in Halloc1.
    by apply is_fresh in Halloc1. }
  split_and!.
  - done.
  - intros l ->. destruct Hres1 as [[_ Hl]|(? & ? & _ & _ & ?)]; [|discriminate].
    by injection Hl.
  - intros l ->. destruct Hres2 as [[_ Hl]|(? & ? & _ & _ & ?)]; [|discriminate].
    by injection Hl.
  - unfold read_dict. by rewrite Hframe2.
  - intros k v. unfold dict_setitem, read_dict, set_heap. cbn [snd heap].
    by rewrite lookup_insert_ne.
  - intros k v. unfold dict_setitem, read_dict, set_heap. cbn [snd heap].
    by rewrite lookup_insert_ne.
Qed.

(** C8.  The prompt of the analysis phase contains the research output it
    is called with, and every request the phase sends carries that prompt
    as its user message. *)
Theorem analysis_prompt_embeds_research :
  (forall research_output,
     is_substring research_output (analysis_message research_output)) /\
  (forall self research_output w,
     Forall (fun r => exists sm, messages r =
                         [Message "system" sm;
                          Message "user" (analysis_message research_output)])
            (new_requests w (conduct_analysis_phase env self research_output w).2)).
Proof.
  split.
  - intros s. unfold is_substring, analysis_message. eexists _, _. reflexivity.
  - intros self s w. rewrite analysis_is_phase. unfold new_requests.
    destruct (read_dict (agents (agents_manager self)) w !! agent_key Analysis)
      as [sm|] eqn:Hsm.
    + rewrite (phase_spec env _ _ _ _ _ _ Hsm).
      destruct (agents_client _ _ _); cbn [snd];
        rewrite ?requests_done, ?requests_failed, drop_app_length;
        repeat constructor; by eexists.
    + destruct (phase_keyerror env _ _ [s] (analysis_message s) _ Hsm)
        as (w' & -> & _ & _ & Hreq & _).
      cbn [snd]. rewrite Hreq, drop_all. constructor.
Qed.

End Claims.

End WorkflowClaims.

(** * Properties of the output files *)

Module OutputFacts.

Import Autogen Workflow Report Stated Sample Effects.
Import WorkflowFacts.

(** *** Composition of the effect predicates *)

Lemma keeps_bind {A B} (c : M world A) (k : A -> M world B) :
  keeps_files c -> (forall a, keeps_files (k a)) -> keeps_files (c ≫= k).
Proof.
  intros Hc Hk w r w'. unfold mbind, M_bind.
  destruct (c w) as [[a|e] w1] eqn:Hcw; intros H.
  - rewrite (Hk a _ _ _ H). eapply Hc, Hcw.
  - injection H as <- <-. eapply Hc, Hcw.
Qed.

Lemma none_bind {A B} (c : M world A) (k : A -> M world B) :
  no_api_error c -> (forall a, no_api_error (k a)) -> no_api_error (c ≫= k).
Proof.
  intros Hc Hk w e w'. unfold mbind, M_bind.
  destruct (c w) as [[a|x] w1] eqn:Hcw; intros H.
  - by apply Hk in H.
  - injection H as -> ->. by apply Hc in Hcw.
Qed.

Lemma api_bind {A B} (c : M world A) (k : A -> M world B) :
  keeps_files c -> (forall a, api_error_keeps_files (k a)) ->
  api_error_keeps_files (c ≫= k).
Proof.
  intros Hc Hk w e w'. unfold mbind, M_bind.
  destruct (c w) as [[a|x] w1] eqn:Hcw; intros H.
  - rewrite (Hk a _ _ _ H). eapply Hc, Hcw.
  - injection H as -> ->. eapply Hc, Hcw.
Qed.

Lemma api_of_none {A} (c : M world A) : no_api_error c -> api_error_keeps_files c.
Proof. intros Hc w e w' H. by apply Hc in H. Qed.

Lemma keeps_mret {A} (a : A) : keeps_files (mret a : M world A).
Proof. intros w r w' H. by injection H as <- <-. Qed.

Lemma keeps_raise {A} e : keeps_files (raise e : M world A).
Proof. intros w r w' H. by injection H as <- <-. Qed.

Lemma keeps_print s : keeps_files (print s).
Proof. intros w r w' H. by injection H as <- <-. Qed.

Lemma keeps_emit l ev : keeps_files (emit l ev).
Proof. intros w r w' H. by injection H as <- <-. Qed.

Lemma keeps_getitem d k : keeps_files (getitem d k : M world string).
Proof. unfold getitem. destruct (d !! k); [apply keeps_mret | apply keeps_raise]. Qed.

Lemma keeps_list_getitem {A} (l : list A) i : keeps_files (list_getitem l i : M world A).
Proof. unfold list_getitem. destruct (l !! i); [apply keeps_mret | apply keeps_raise]. Qed.

Lemma keeps_dict_getitem l k : keeps_files (dict_getitem l k).
Proof. unfold dict_getitem. intros w r w' H. by apply keeps_getitem in H. Qed.

Lemma keeps_dict_setitem l k v : keeps_files (dict_setitem l k v).
Proof. intros w r w' H. by injection H as <- <-. Qed.

Lemma keeps_dict_new : keeps_files dict_new.
Proof. intros w r w' H. by injection H as <- <-. Qed.

Lemma keeps_create c r : keeps_files (chat_completions_create c r).
Proof.
  intros w x w' H. unfold chat_completions_create in H.
  destruct (c _ _); by injection H as <- <-.
Qed.

Lemma none_mret {A} (a : A) : no_api_error (mret a : M world A).
Proof. intros w e w' H. discriminate. Qed.

Lemma none_print s : no_api_error (print s).
Proof. intros w e w' H. discriminate. Qed.

Lemma none_file_open_w can p : no_api_error (file_open_w can p).
Proof. intros w e w' H. unfold file_open_w in H. destruct (can p); discriminate. Qed.

Lemma none_file_write p s : no_api_error (file_write p s).
Proof. intros w e w' H. discriminate. Qed.

Lemma none_dict_get_ref l k d : no_api_error (dict_get_ref l k d).
Proof. intros w e w' H. discriminate. Qed.

Ltac keeps :=
  repeat first
    [ apply keeps_bind; [|intros ?; cbv beta zeta]
    | apply keeps_mret | apply keeps_print | apply keeps_emit
    | apply keeps_dict_getitem | apply keeps_dict_setitem | apply keeps_create
    | apply keeps_dict_new | apply keeps_getitem | apply keeps_list_getitem ].

Ltac none :=
  repeat first
    [ apply none_bind; [|intros ?; cbv beta zeta]
    | apply none_mret | apply none_print | apply none_file_open_w
    | apply none_file_write | apply none_dict_get_ref ].

Section Files.

Context (env : Env).

Lemma keeps_phase self s inputs prompt : keeps_files (phase env self s inputs prompt).
Proof. unfold phase. keeps. Qed.

Lemma keeps_execute_workflow self : keeps_files (execute_workflow env self).
Proof.
  unfold execute_workflow.
  do 4 (apply keeps_bind; [apply keeps_print|intros _]).
  rewrite research_is_phase.
  apply keeps_bind; [apply keeps_phase|intros ?].
  rewrite analysis_is_phase.
  apply keeps_bind; [apply keeps_phase|intros ?].
  rewrite blueprint_is_phase.
  apply keeps_bind; [apply keeps_phase|intros ?].
  rewrite technical_is_phase.
  apply keeps_bind; [apply keeps_phase|intros ?].
  rewrite review_is_phase.
  apply keeps_bind; [apply keeps_phase|intros ?].
  apply keeps_mret.
Qed.

Lemma keeps_agents_init l : keeps_files (InterviewPlatformAgents_init env l).
Proof. unfold InterviewPlatformAgents_init. keeps. Qed.

Lemma keeps_workflow_init m : keeps_files (InterviewPlatformWorkflow_init m).
Proof. unfold InterviewPlatformWorkflow_init. keeps. Qed.

Lemma keeps_create_agents m :
  keeps_files (create_research_agent m) /\ keeps_files (create_analysis_agent m) /\
  keeps_files (create_blueprint_agent m) /\ keeps_files (create_technical_agent m) /\
  keeps_files (create_reviewer_agent m).
Proof.
  unfold create_research_agent, create_analysis_agent, create_blueprint_agent,
    create_technical_agent, create_reviewer_agent.
  split_and!; cbv zeta; keeps.
Qed.

Lemma none_save_outputs self l : no_api_error (save_outputs env self l).
Proof. unfold save_outputs. cbv zeta. none. Qed.

Lemma none_create_summary self l : no_api_error (create_summary env self l).
Proof. unfold create_summary. cbv zeta. none. Qed.

Lemma none_output_manager_init o : no_api_error (OutputManager_init env o).
Proof. unfold OutputManager_init. cbv zeta. apply none_mret. Qed.

Lemma main_body_api_error : api_error_keeps_files (main_body env).
Proof.
  unfold main_body.
  apply api_bind; [apply keeps_print|intros _].
  destruct (negb (validate_setup env)).
  { apply api_of_none. none. }
  cbv zeta.
  apply api_bind; [apply keeps_print|intros _].
  apply api_bind; [apply keeps_print|intros _].
  apply api_bind; [apply keeps_agents_init|intros m].
  destruct (keeps_create_agents m) as (K1 & K2 & K3 & K4 & K5).
  repeat (apply api_bind;
          [first [ apply keeps_print | assumption | apply keeps_workflow_init
                 | apply keeps_execute_workflow ]
          | intros ? ]).
  apply api_of_none.
  repeat first
    [ apply none_print | apply none_mret | apply none_save_outputs
    | apply none_create_summary | apply none_output_manager_init
    | apply none_bind; [|intros ?] ].
Qed.

(** *** What [save_outputs] writes *)

Lemma open_step {A} p (k : unit -> M world A) w :
  can_open env p = true ->
  (file_open_w (can_open env) p ≫= k) w =
  k tt (World (heap w) (stdout w) (<[p := ""]> (files w)) (requests w) (trace w)).
Proof. intros H. unfold mbind, M_bind, file_open_w. by rewrite H. Qed.

Lemma write_step {A} p s (k : unit -> M world A) h o f c rq tr :
  (file_write p s ≫= k) (World h o (<[p := c]> f) rq tr) =
  k tt (World h o (<[p := c +:+ s]> f) rq tr).
Proof.
  unfold mbind, M_bind, file_write. cbn [heap stdout files requests trace].
  by rewrite lookup_insert_eq, insert_insert_eq.
Qed.

Lemma get_step {A} l key dflt (k : string -> M world A) w :
  (dict_get_ref l key dflt ≫= k) w = k (dict_get (read_dict l w) key dflt) w.
Proof. reflexivity. Qed.

Lemma save_outputs_spec self l w :
  can_open env (output_path self) = true ->
  save_outputs env self l w =
  (Ok (output_path self),
   World (heap w) (stdout w)
         (<[output_path self := written (report_chunks env (read_dict l w))]> (files w))
         (requests w) (trace w)).
Proof.
  intros Hcan. unfold save_outputs. cbv zeta.
  fold (output_path self).
  rewrite (open_step _ _ _ Hcan).
  repeat first [rewrite write_step | rewrite get_step].
  reflexivity.
Qed.

Lemma report_chunks_stage d s :
  (default (placeholder s) (d !! stage_key s) +:+ nl +:+ nl) ∈ report_chunks env d.
Proof.
  unfold report_chunks. apply elem_of_app. right.
  apply list_elem_of_bind. exists s. split.
  - unfold section_chunks. rewrite !elem_of_cons. auto.
  - unfold stages. rewrite !elem_of_cons. destruct s; auto 6.
Qed.

End Files.

End OutputFacts.

(** * Properties of [main] *)

Module MainFacts.

Import Autogen Workflow Report Stated Sample Effects MainRun.
Import WorkflowFacts OutputFacts.

Lemma ret_bind {A B} (b : B) (c : M world A) (k : A -> M world B) :
  (forall a, returns_only b (k a)) -> returns_only b (c ≫= k).
Proof.
  intros Hk w a w'. unfold mbind, M_bind.
  destruct (c w) as [[x|e] w1]; intros H; [by eapply Hk|discriminate].
Qed.

Lemma ret_mret {B} (b : B) : returns_only b (mret b : M world B).
Proof. intros w a w' H. by injection H as <- <-. Qed.

Lemma bind_bind_step {A B C} (a : M world A) (b : A -> M world B) (k : B -> M world C) w :
  (a ≫= λ x, b x ≫= k) w =
  match (a ≫= b) w with
  | (Ok y, w') => k y w'
  | (Raise e, w') => (Raise e, w')
  end.
Proof.
  unfold mbind, M_bind. destruct (a w) as [[x|e] w1]; [|reflexivity].
  by destruct (b x w1) as [[y|e] w2].
Qed.

Lemma store_all_lookup o d s : store_all o d !! stage_key s = Some (o s).
Proof. unfold store_all, stages. cbn [foldl]. destruct s; by simplify_map_eq. Qed.

Lemma lookup_requests_tail (rq : list request) r1 r2 r3 r4 r5 i :
  i < 5 ->
  (((((rq ++ [r1]) ++ [r2]) ++ [r3]) ++ [r4]) ++ [r5]) !! (length rq + i)
  = [r1; r2; r3; r4; r5] !! i.
Proof.
  intros Hi. rewrite <- !app_assoc. cbn [app].
  rewrite lookup_app_r by lia. f_equal. lia.
Qed.

Section Main.

Context (env : Env).

Lemma phase_method_is_phase self o s :
  phase_method env self o s = phase env self s (inputs_of o s) (render s (inputs_of o s)).
Proof. by destruct s. Qed.

(** A completed [execute_workflow], on any workflow object whose agents are
    registered: the outputs of the five stages over what the mapping held. *)
Lemma execute_completed self w l w' :
  registered (agents_manager self) w ->
  agents (agents_manager self) <> outputs self ->
  execute_workflow env self w = (Ok l, w') ->
  l = outputs self /\
  registered (agents_manager self) w' /\
  exists o,
    read_dict (outputs self) w' = store_all o (read_dict (outputs self) w) /\
    length (requests w') = length (requests w) + 5 /\
    forall s, exists r,
      requests w' !! (length (requests w) + stage_index s) = Some r /\
      agents_client (agents_manager self) (length (requests w) + stage_index s) r
        = Completion (o s).
Proof.
  intros Hreg Hne Hrun. rewrite execute_workflow_spec in Hrun by done.
  unfold workflow_outcome in Hrun. cbv zeta in Hrun.
  repeat match type of Hrun with
         | match ?c with Completion _ => _ | Failure _ => _ end = _ =>
             let E := fresh "Ereply" in destruct c eqn:E
         end;
    inversion Hrun; subst; clear Hrun.
  split_and!; [done|by repeat apply registered_done|].
  exists (outs5 text text0 text1 text2 text3). split_and!.
  - repeat first [rewrite read_dict_done | rewrite decide_True by done]. reflexivity.
  - rewrite !length_requests_done. change (requests (banner env w)) with (requests w). lia.
  - intros s. pose proof (stage_index_lt s) as Hs.
    rewrite !requests_done.
    change (requests (banner env w)) with (requests w).
    rewrite lookup_requests_tail by done.
    destruct s; cbn [stage_index lookup list_lookup outs5]; eexists; (split; [reflexivity|]);
      rewrite ?Nat.add_0_r, ?(Nat.add_comm (length _)); cbn [Nat.add]; eassumption.
Qed.

Lemma print_step {A} s (k : unit -> M world A) h o f rq tr :
  (print s ≫= k) (World h o f rq tr) = k tt (World h (o ++ [s]) f rq tr).
Proof. reflexivity. Qed.

Lemma agents_init_step {A} (k : InterviewPlatformAgents -> M world A) w c rest :
  get_config_list env = c :: rest ->
  is_Some (c !! "api_key") -> is_Some (c !! "api_base") -> is_Some (c !! "model") ->
  (InterviewPlatformAgents_init env (get_config_list env) ≫= k) w =
  k (main_manager env w c)
    (World (<[fresh (dom (heap w)) := ∅]> (heap w)) (stdout w) (files w) (requests w)
           (trace w)).
Proof.
  intros Hc [key Hkey] [base Hbase] [mo Hmo].
  unfold main_manager. rewrite Hc, Hkey, Hbase, Hmo. cbn [default].
  unfold InterviewPlatformAgents_init, dict_new, list_getitem, getitem, set_heap,
    mbind, M_bind, mret, M_ret.
  cbn [lookup list_lookup heap stdout files requests trace].
  rewrite Hkey, Hbase, Hmo. reflexivity.
Qed.

Lemma agent_step {A} l key v (k : string -> M world A) h d o f rq tr :
  ((dict_setitem l key v;; mret v) ≫= k) (World (<[l := d]> h) o f rq tr) =
  k v (World (<[l := <[key := v]> d]> h) o f rq tr).
Proof.
  unfold mbind, M_bind, mret, M_ret, dict_setitem, read_dict, set_heap.
  cbn [heap stdout files requests trace].
  by rewrite lookup_insert_eq, insert_insert_eq.
Qed.

Lemma run_then {C} m (k : loc -> M world C) w :
  (InterviewPlatformWorkflow_init m ≫= λ workflow, execute_workflow env workflow ≫= k) w =
  match run_workflow env m w with
  | (Ok l, w') => k l w'
  | (Raise e, w') => (Raise e, w')
  end.
Proof. apply bind_bind_step. Qed.

Lemma output_manager_step {A} (k : OutputManager -> M world A) w :
  (OutputManager_init env None ≫= k) w = k (main_output_manager env) w.
Proof. reflexivity. Qed.

Lemma create_summary_cases self l w :
  create_summary env self l w =
  if can_open env (summary_path self)
  then (Ok (summary_path self),
        World (heap w) (stdout w)
              (<[summary_path self := written (summary_chunks env self)]> (files w))
              (requests w) (trace w))
  else (Raise (OSError (summary_path self)), w).
Proof.
  unfold create_summary. cbv zeta. fold (summary_path self).
  destruct (can_open env (summary_path self)) eqn:Hcan.
  - rewrite (open_step env _ _ _ Hcan).
    repeat rewrite write_step. reflexivity.
  - unfold mbind at 1, M_bind at 1, file_open_w. by rewrite Hcan.
Qed.

Lemma save_outputs_cases self l w :
  save_outputs env self l w =
  if can_open env (output_path self)
  then (Ok (output_path self),
        World (heap w) (stdout w)
              (<[output_path self := written (report_chunks env (read_dict l w))]> (files w))
              (requests w) (trace w))
  else (Raise (OSError (output_path self)), w).
Proof.
  destruct (can_open env (output_path self)) eqn:Hcan.
  - by apply save_outputs_spec.
  - unfold save_outputs. cbv zeta. fold (output_path self).
    unfold mbind at 1, M_bind at 1, file_open_w. by rewrite Hcan.
Qed.

Lemma main_ready_registered w c : registered (main_manager env w c) (main_ready env w).
Proof.
  intros s. unfold read_dict, main_ready, main_manager. cbn [heap agents].
  rewrite lookup_insert_eq. cbn [default]. unfold all_agents.
  destruct s; cbn [agent_key]; by simplify_map_eq.
Qed.



(** The body of [main] when the validation fails. *)
Lemma main_body_refused w :
  validate_setup env = false ->
  main_body env w =
  (Ok false,
   World (heap w)
         (stdout w ++ [ "Validating configuration...";
                        nl +:+ "✗ Configuration validation failed";
                        "Please ensure OPENAI_API_KEY is set in the parent directory .env file" ])
         (files w) (requests w) (trace w)).
Proof.
  intros Hv. unfold main_body. destruct w as [h o f rq tr].
  rewrite print_step, Hv. cbn [negb]. rewrite !print_step.
  unfold mret, M_ret. cbn [heap stdout files requests trace].
  by rewrite <- !app_assoc.
Qed.

(** The body of [main] on a configuration list that
    [InterviewPlatformAgents.__init__] cannot use. *)
Lemma main_body_config_error w e :
  validate_setup env = true ->
  config_error (get_config_list env) = Some e ->
  main_body env w =
  (Raise e,
   World (<[fresh (dom (heap w)) := ∅]> (heap w))
         (stdout w ++ [ "Validating configuration..."; get_summary env;
                        "Initializing agents..." ])
         (files w) (requests w) (trace w)).
Proof.
  intros Hv He. unfold main_body. destruct w as [h o f rq tr].
  rewrite print_step, Hv. cbn [negb]. cbv zeta. rewrite !print_step.
  unfold mbind at 1, M_bind at 1.
  unfold InterviewPlatformAgents_init, dict_new, list_getitem, getitem, raise, set_heap.
  unfold mbind, M_bind, mret, M_ret. cbn [heap stdout files requests trace].
  unfold config_error in He.
  destruct (get_config_list env) as [|c rest]; cbn [lookup list_lookup].
  { injection He as <-. by rewrite <- !app_assoc. }
  repeat case_bool_decide.
  all: repeat match goal with
         | H : ?x = None |- _ => rewrite H
         | H : ?x <> None |- context [?x] => destruct x; [|done]
         end.
  all: try discriminate.
  all: injection He as <-; by rewrite <- !app_assoc.
Qed.

Lemma config_usable :
  config_error (get_config_list env) = None ->
  exists c rest,
    get_config_list env = c :: rest /\
    is_Some (c !! "api_key") /\ is_Some (c !! "api_base") /\ is_Some (c !! "model").
Proof.
  unfold config_error. destruct (get_config_list env) as [|c rest]; [done|].
  intros H. exists c, rest. repeat case_bool_decide; try discriminate.
  split_and!; [done|..]; by apply not_eq_None_Some.
Qed.

(** The body of [main] when the configuration is valid and complete: the
    agents are created, the workflow is run once, and either its exception
    comes out or the two files are written, one after the other. *)
Lemma main_body_spec w c rest :
  validate_setup env = true ->
  get_config_list env = c :: rest ->
  is_Some (c !! "api_key") -> is_Some (c !! "api_base") -> is_Some (c !! "model") ->
  main_body env w =
  match run_workflow env (main_manager env w c) (main_ready env w) with
  | (Raise e, wx) => (Raise e, wx)
  | (Ok l, wx) =>
      let om := main_output_manager env in
      if can_open env (output_path om) then
        if can_open env (summary_path om) then (Ok true, main_finished env l wx)
        else (Raise (OSError (summary_path om)),
              World (heap wx) (stdout wx ++ [nl +:+ "Saving outputs..."])
                    (<[output_path om := written (report_chunks env (read_dict l wx))]>
                       (files wx))
                    (requests wx) (trace wx))
      else (Raise (OSError (output_path om)), main_saving wx)
  end.
Proof.
  intros Hv Hc Hkey Hbase Hmo. destruct w as [h o f rq tr].
  unfold main_body. rewrite print_step, Hv. cbn [negb]. cbv zeta.
  rewrite !print_step.
  rewrite (agents_init_step _ _ c rest) by done.
  unfold create_research_agent, create_analysis_agent, create_blueprint_agent,
    create_technical_agent, create_reviewer_agent. cbv zeta.
  cbn [heap stdout files requests trace main_manager agents].
  repeat first [rewrite agent_step | rewrite print_step].
  rewrite run_then, <- !app_assoc.
  unfold main_ready, all_agents, main_manager.
  cbn [heap stdout files requests trace app].
  destruct (run_workflow env _ _) as [[l|e] wx]; [|reflexivity].
  destruct wx as [h' o' f' rq' tr'].
  rewrite print_step, output_manager_step.
  unfold mbind at 1, M_bind at 1. rewrite save_outputs_cases.
  destruct (can_open env (output_path _)); [|reflexivity].
  unfold mbind at 1, M_bind at 1. rewrite create_summary_cases.
  cbn [heap stdout files requests trace].
  destruct (can_open env (summary_path _)); [|reflexivity].
  rewrite !print_step. rewrite <- !app_assoc. reflexivity.
Qed.

(** [main] is its body, with the handler's lines printed before an
    exception goes on. *)
Lemma main_spec w :
  main env w =
  match main_body env w with
  | (Ok b, w') => (Ok b, w')
  | (Raise e, w') => (Raise e, gave_up env e w')
  end.
Proof.
  unfold main, try_except. destruct (main_body env w) as [[b|e] [h o f rq tr]]; [done|].
  rewrite !print_step. unfold raise, gave_up, handler_lines, error_line.
  cbn [heap stdout files requests trace]. by rewrite <- !app_assoc.
Qed.

Lemma main_body_returns_true : validate_setup env = true -> returns_only true (main_body env).
Proof.
  intros Hv. unfold main_body. apply ret_bind; intros _. rewrite Hv. cbn [negb]. cbv zeta.
  repeat match goal with
         | |- returns_only _ (_ ≫= _) => apply ret_bind; intros ?
         end.
  apply ret_mret.
Qed.

Lemma keeps_run_workflow m : keeps_files (run_workflow env m).
Proof.
  unfold run_workflow. apply keeps_bind; [apply keeps_workflow_init|intros wf].
  apply keeps_execute_workflow.
Qed.

(** A completed run started by [main]. *)
Lemma run_completed m w l wx :
  registered m w ->
  run_workflow env m w = (Ok l, wx) ->
  files wx = files w /\
  length (requests wx) = length (requests w) + 5 /\
  forall s, exists r out,
    requests wx !! (length (requests w) + stage_index s) = Some r /\
    model r = agents_model m /\
    agents_client m (length (requests w) + stage_index s) r = Completion out /\
    read_dict l wx !! stage_key s = Some out.
Proof.
  intros Hreg Hrun. split; [by eapply keeps_run_workflow|].
  pose proof (registered_not_fresh _ _ Hreg) as Hne.
  destruct (run_has_shape env _ _ _ _ Hreg Hrun) as (o & k & _ & _ & Hnew & _).
  rewrite run_workflow_unfold in Hrun.
  apply execute_completed in Hrun as (-> & _ & o' & Hd & Hlen & Hr);
    cbn [agents_manager outputs fresh_workflow]; [|..|done].
  - split; [exact Hlen|]. intros s. destruct (Hr s) as (r & Hr1 & Hr2).
    exists r, (o' s). split_and!; [exact Hr1| |exact Hr2|].
    + change (requests (fresh_world w)) with (requests w) in Hr1.
      assert (Hin : new_requests w wx !! stage_index s = Some r)
        by (unfold new_requests; by rewrite lookup_drop).
      rewrite Hnew in Hin. apply lookup_take_Some in Hin as [Hin _].
      by apply full_requests_inv in Hin as (s' & _ & ->).
    + cbn [outputs fresh_workflow] in Hd. rewrite Hd. apply store_all_lookup.
  - intros s. rewrite read_dict_fresh_world, decide_False by done. apply Hreg.
Qed.

(** A run of [main] either sends no request, or goes through one run of
    the workflow, whose exception [main] raises again after the handler's
    lines. *)
Lemma main_run w r w' :
  main env w = (r, w') ->
  requests w' = requests w \/
  exists c rest res wx,
    get_config_list env = c :: rest /\
    run_workflow env (main_manager env w c) (main_ready env w) = (res, wx) /\
    requests w' = requests wx /\
    match res with
    | Raise e => r = Raise e /\ w' = gave_up env e wx
    | Ok _ => True
    end.
Proof.
  intros Hmain. rewrite main_spec in Hmain.
  destruct (validate_setup env) eqn:Hv.
  - destruct (config_error (get_config_list env)) as [e|] eqn:Hce.
    + left. rewrite (main_body_config_error w e Hv Hce) in Hmain.
      by injection Hmain as <- <-.
    + right. destruct (config_usable Hce) as (c & rest & Hc & Hkey & Hbase & Hmo).
      rewrite (main_body_spec w c rest Hv Hc Hkey Hbase Hmo) in Hmain.
      exists c, rest.
      destruct (run_workflow env _ _) as [[l|e] wx] eqn:Hrun.
      * exists (Ok l), wx. split_and!; [done|done| |done].
        cbv zeta in Hmain.
        destruct (can_open env (output_path _));
          [destruct (can_open env (summary_path _))|]; by injection Hmain as <- <-.
      * exists (Raise e), wx. injection Hmain as <- <-. by split_and!.
  - left. rewrite (main_body_refused w Hv) in Hmain. by injection Hmain as <- <-.
Qed.

End Main.

End MainFacts.

(** * What [main] does when the model fails *)

Module MainClaims.

Import Autogen Workflow Report Stated Sample Effects MainRun.
Import WorkflowFacts OutputFacts MainFacts.

Section Files.

Context (env : Env).

(** C6, as amended.  When a request that [main] sent is answered by a
    failure, [main] raises that error: it has printed the error line,
    written no file and sent no other request; [save_outputs] was not
    reached.  More generally a [main] that ends with an error of the model
    API has written no file.  [save_outputs] itself, on any mapping, writes
    for every stage the stage's output when the mapping has one and the text
    [No <stage> output] when it has none. *)
Theorem failed_run_reporting :
  (forall w c rest key base r w' i rq e,
     get_config_list env = c :: rest ->
     c !! "api_key" = Some key ->
     c !! "api_base" = Some base ->
     main env w = (r, w') ->
     length (requests w) <= i ->
     requests w' !! i = Some rq ->
     OpenAI env key base i rq = Failure e ->
     r = Raise (APIError e) /\
     files w' = files w /\
     error_line env (APIError e) ∈ stdout w' /\
     length (requests w') = S i) /\
  (forall w e w',
     main env w = (Raise (APIError e), w') ->
     files w' = files w /\ error_line env (APIError e) ∈ stdout w') /\
  (forall self l w,
     can_open env (output_path self) = true ->
     exists w',
       save_outputs env self l w = (Ok (output_path self), w') /\
       files w' !! output_path self = Some (written (report_chunks env (read_dict l w))) /\
       forall s,
         match read_dict l w !! stage_key s with
         | Some out => (out +:+ nl +:+ nl) ∈ report_chunks env (read_dict l w)
         | None => (placeholder s +:+ nl +:+ nl) ∈ report_chunks env (read_dict l w)
         end).
Proof.
  split_and!.
  - intros w c rest key base r w' i rq e Hc Hkey Hbase Hmain Hle Hlook Hfail.
    destruct (main_run env w r w' Hmain)
      as [Hsame|(c' & rest' & res & wx & Hc' & Hrun & Hreq & Hres)].
    { rewrite Hsame in Hlook. apply lookup_lt_Some in Hlook. lia. }
    rewrite Hc in Hc'. injection Hc' as <- <-.
    pose proof (main_ready_registered env w c) as Hreg.
    destruct (run_has_shape env _ _ _ _ Hreg Hrun) as (o & k & Hshape).
    pose proof (shape_bound env _ _ _ _ _ _ Hshape) as Hk.
    destruct Hshape as (Hrep & _ & Hnew & _ & _ & _ & Hfiles & Hshape).
    rewrite Hreq in Hlook |- *.
    change (files (main_ready env w)) with (files w) in Hfiles.
    assert (Hin : new_requests (main_ready env w) wx !! (i - length (requests w)) = Some rq).
    { unfold new_requests. rewrite lookup_drop.
      change (requests (main_ready env w)) with (requests w).
      by replace (length (requests w) + (i - length (requests w))) with i by lia. }
    assert (Hlen : length (requests wx) = length (requests w) + S k).
    { assert (length (new_requests (main_ready env w) wx) = S k) as Hl.
      { rewrite Hnew, length_take. unfold full_requests. rewrite length_fmap. cbn.
        destruct Hshape as [[-> _]|(s0 & ? & <- & _)]; [|pose proof (stage_index_lt s0); lia].
        rewrite Hnew in Hin. apply lookup_take_Some in Hin as [Hin _].
        apply full_requests_inv in Hin as (s & Hs & ->).
        assert (reply_of env (main_manager env w c) (main_ready env w) o s = Failure e) as Hf.
        { unfold reply_of. change (requests (main_ready env w)) with (requests w).
          cbn [main_manager agents_client]. rewrite Hkey, Hbase. cbn [default].
          by replace (length (requests w) + stage_index s) with i by lia. }
        pose proof (stage_index_lt s). rewrite Hrep in Hf by lia. discriminate. }
      unfold new_requests in Hl. rewrite length_drop in Hl.
      change (requests (main_ready env w)) with (requests w) in Hl. lia. }
    rewrite Hnew in Hin. apply lookup_take_Some in Hin as [Hin Hik].
    apply full_requests_inv in Hin as (s & Hs & ->).
    assert (reply_of env (main_manager env w c) (main_ready env w) o s = Failure e) as Hf.
    { unfold reply_of. change (requests (main_ready env w)) with (requests w).
      cbn [main_manager agents_client]. rewrite Hkey, Hbase. cbn [default].
      by replace (length (requests w) + stage_index s) with i by lia. }
    assert (stage_index s = k) as Hsk.
    { destruct (decide (stage_index s < k)) as [Hlt|Hge]; [|lia].
      rewrite (Hrep s Hlt) in Hf. discriminate. }
    destruct Hshape as [[-> _]|(s0 & e0 & Hs0 & Hf0 & ->)];
      [pose proof (stage_index_lt s); lia|].
    assert (s0 = s) as -> by (apply stage_index_inj; lia).
    rewrite Hf in Hf0. injection Hf0 as <-.
    destruct Hres as [-> ->]. unfold gave_up. cbn [files stdout requests].
    split_and!; [done|done| |lia].
    apply elem_of_app. right. unfold handler_lines. apply elem_of_cons. by left.
  - intros w e w' H. unfold main, try_except in H.
    destruct (main_body env w) as [[b|x] w1] eqn:Hb; [discriminate|].
    unfold mbind, M_bind, print, raise in H.
    cbn [heap stdout files requests trace] in H.
    injection H as -> <-. cbn [files stdout]. split.
    + by apply main_body_api_error in Hb.
    + unfold error_line. rewrite <- !app_assoc. apply elem_of_app. right.
      apply elem_of_cons. by left.
  - intros self l w Hcan. eexists. split; [by apply save_outputs_spec|].
    cbn [files]. split; [by rewrite lookup_insert_eq|].
    intros s. pose proof (report_chunks_stage env (read_dict l w) s) as H.
    by destruct (read_dict l w !! stage_key s).
Qed.

End Files.

End MainClaims.

(** * Further properties of the workflow *)

Module WorkflowExtras.
Import Autogen Workflow Report Stated Sample Effects MainRun.
Import WorkflowFacts MainFacts.

Section Extras.

Context (env : Env).

(** A phase whose agent has not been created raises [KeyError] with the
    agent's key after printing its banner: it sends no request, stores
    nothing, writes no file and logs no step. *)
Theorem phase_without_agent_raises self o s w :
  read_dict (agents (agents_manager self)) w !! agent_key s = None ->
  phase_method env self o s w =
  (Raise (KeyError (agent_key s)),
   World (heap w) (stdout w ++ phase_banner s) (files w) (requests w) (trace w)).
Proof.
  intros Hsm. rewrite phase_method_is_phase. unfold phase, phase_banner.
  unfold print, emit, dict_getitem, dict_setitem, chat_completions_create, getitem,
    raise, set_heap, read_dict, mbind, M_bind, mret, M_ret in *.
  cbn [heap stdout files requests trace]. rewrite Hsm.
  by rewrite <- !app_assoc.
Qed.

(** Running [execute_workflow] a second time on the same workflow object
    returns the same dict as the first time, and that dict then holds the
    replies of the second run: the mapping handed out by the first run has
    been overwritten. *)
Theorem rerun_overwrites_outputs self w l1 w1 l2 w2 :
  registered (agents_manager self) w ->
  agents (agents_manager self) <> outputs self ->
  execute_workflow env self w = (Ok l1, w1) ->
  execute_workflow env self w1 = (Ok l2, w2) ->
  l1 = l2 /\
  forall s, exists r out,
    requests w2 !! (length (requests w1) + stage_index s) = Some r /\
    agents_client (agents_manager self) (length (requests w1) + stage_index s) r
      = Completion out /\
    read_dict l1 w2 !! stage_key s = Some out.
Proof.
  intros Hreg Hne H1 H2.
  destruct (execute_completed env _ _ _ _ Hreg Hne H1) as (-> & Hreg1 & _).
  destruct (execute_completed env _ _ _ _ Hreg1 Hne H2) as (-> & _ & o & Hd & _ & Hr).
  split; [done|]. intros s. destruct (Hr s) as (r & Hr1 & Hr2).
  exists r, (o s). split_and!; [done..|].
  rewrite Hd. apply store_all_lookup.
Qed.



End Extras.

End WorkflowExtras.

(** * Further properties of [main] and the output files *)

Module MainExtras.

Import Autogen Workflow Report Stated Sample Effects MainRun.
Import WorkflowFacts OutputFacts MainFacts.

Section Main.

Context (env : Env).

(** [create_summary] does not read the outputs: on the same files it ends
    the same way and leaves the same files whatever mapping it is given,
    and the summary it writes lists all five phases as completed. *)
Theorem summary_does_not_depend_on_outputs self l1 l2 w1 w2 :
  files w1 = files w2 ->
  (create_summary env self l1 w1).1 = (create_summary env self l2 w2).1 /\
  files (create_summary env self l1 w1).2 = files (create_summary env self l2 w2).2 /\
  forall p, (create_summary env self l1 w1).1 = Ok p ->
            p = summary_path self /\
            files (create_summary env self l1 w1).2 !! p
            = Some (written (summary_chunks env self)).
Proof.
  intros Hf. rewrite !create_summary_cases.
  destruct (can_open env (summary_path self)); cbn [fst snd files].
  - rewrite Hf. split_and!; [done..|]. intros p [= <-].
    by rewrite lookup_insert_eq.
  - split_and!; [done..|]. intros p [=].
Qed.

(** [save_outputs] changes nothing but its own file: the objects, the
    terminal, the requests and every other file stay as they were, and when
    the file cannot be opened it raises [OSError] with everything as it
    was. *)
Theorem save_outputs_frame self l w :
  let x := save_outputs env self l w in
  heap x.2 = heap w /\ stdout x.2 = stdout w /\ requests x.2 = requests w /\
  (forall p, p <> output_path self -> files x.2 !! p = files w !! p) /\
  (if can_open env (output_path self)
   then x.1 = Ok (output_path self)
   else x = (Raise (OSError (output_path self)), w)).
Proof.
  cbv zeta. rewrite save_outputs_cases.
  destruct (can_open env (output_path self)); cbn [fst snd heap stdout requests files].
  - split_and!; [done..| |done]. intros p Hp. by rewrite lookup_insert_ne.
  - by split_and!.
Qed.

(** [main] returns [False] exactly when the validation of the configuration
    fails, and then it has only printed three lines: no agent is created, no
    request is sent and no file is written.  Whenever [main] returns, the
    value is the result of the validation. *)
Theorem main_returns_validation_result w :
  (validate_setup env = false ->
   main env w =
   (Ok false,
    World (heap w)
          (stdout w ++ [ "Validating configuration...";
                         nl +:+ "✗ Configuration validation failed";
                         "Please ensure OPENAI_API_KEY is set in the parent directory .env file" ])
          (files w) (requests w) (trace w))) /\
  (forall b w', main env w = (Ok b, w') -> b = validate_setup env).
Proof.
  split.
  - intros Hv. by rewrite main_spec, main_body_refused.
  - intros b w' Hmain. rewrite main_spec in Hmain.
    destruct (main_body env w) as [[b'|e] w1] eqn:Hbody; [|discriminate].
    injection Hmain as -> ->.
    destruct (validate_setup env) eqn:Hv.
    + by eapply main_body_returns_true.
    + rewrite main_body_refused in Hbody by done. by injection Hbody as <- _.
Qed.

(** With a configuration list that is empty, or whose first entry lacks
    [api_key], [api_base] or [model], [main] raises [IndexError] or the
    [KeyError] of the first missing key, in that order: it has printed the
    error line, sent no request and written no file. *)
Theorem main_config_error w e :
  validate_setup env = true ->
  config_error (get_config_list env) = Some e ->
  (main env w).1 = Raise e /\
  requests (main env w).2 = requests w /\
  files (main env w).2 = files w /\
  error_line env e ∈ stdout (main env w).2.
Proof.
  intros Hv He. rewrite main_spec, (main_body_config_error env w e Hv He).
  unfold gave_up. cbn [fst snd heap stdout files requests trace].
  split_and!; [done..|].
  apply elem_of_app. right. unfold handler_lines. apply elem_of_cons. by left.
Qed.

(** When [main] returns with a usable configuration, it returns [True]
    after exactly five requests, each for the configured model and answered
    by the client built from the configuration; the outputs file holds the
    report of a mapping that has the five replies, the summary file holds
    the summary, and no other file has changed. *)
Theorem main_success w c rest key base mo b w' :
  validate_setup env = true ->
  get_config_list env = c :: rest ->
  c !! "api_key" = Some key -> c !! "api_base" = Some base -> c !! "model" = Some mo ->
  main env w = (Ok b, w') ->
  let om := main_output_manager env in
  b = true /\
  length (requests w') = length (requests w) + 5 /\
  exists d,
    files w' = <[summary_path om := written (summary_chunks env om)]>
                 (<[output_path om := written (report_chunks env d)]> (files w)) /\
    forall s, exists r out,
      requests w' !! (length (requests w) + stage_index s) = Some r /\
      model r = mo /\
      OpenAI env key base (length (requests w) + stage_index s) r = Completion out /\
      d !! stage_key s = Some out /\
      (out +:+ nl +:+ nl) ∈ report_chunks env d.
Proof.
  intros Hv Hc Hkey Hbase Hmo Hmain om.
  rewrite main_spec, (main_body_spec env w c rest) in Hmain
    by (by rewrite ?Hkey, ?Hbase, ?Hmo).
  pose proof (main_ready_registered env w c) as Hreg.
  destruct (run_workflow env _ _) as [[l|e] wx] eqn:Hrun; [|discriminate].
  cbv zeta in Hmain. fold om in Hmain.
  destruct (can_open env (output_path om)); [|discriminate].
  destruct (can_open env (summary_path om)); [|discriminate].
  injection Hmain as <- <-.
  apply run_completed in Hrun as (Hf & Hlen & Hr); [|done].
  change (files (main_ready env w)) with (files w) in Hf.
  change (requests (main_ready env w)) with (requests w) in Hlen, Hr.
  split_and!; [done|exact Hlen|].
  exists (read_dict l wx). split.
  - unfold main_finished. cbn [files]. fold om. by rewrite Hf.
  - intros s. destruct (Hr s) as (r & out & Hr1 & Hr2 & Hr3 & Hr4).
    exists r, out. split_and!; [exact Hr1| | |exact Hr4|].
    + rewrite Hr2. cbn [main_manager agents_model]. by rewrite Hmo.
    + cbn [main_manager agents_client] in Hr3. by rewrite Hkey, Hbase in Hr3.
    + pose proof (report_chunks_stage env (read_dict l wx) s) as Hin.
      by rewrite Hr4 in Hin.
Qed.



End Main.

End MainExtras.

(** * Sample runs *)

Module Runs.

Import Autogen Workflow Report Stated Sample Effects Openai MainRun.
Import WorkflowFacts WorkflowClaims OutputFacts MainClaims WorkflowExtras MainExtras.

Lemma sample_registered c : registered (manager c) (ready c).
Proof. intros s. destruct s; vm_compute; eauto. Qed.

Lemma sample_run c :
  run_workflow (env_with c) (manager c) (ready c) = ((outcome c).1, (outcome c).2).
Proof. unfold outcome. by destruct (run_workflow _ _ _). Qed.

Lemma transient_failures_are_retried_up_to_three_attempts_witness :
  let c := retrying_client in
  stage_round_trips flaky_net (ready c) (outcome c).2 Research = 2 /\
  read_dict (fresh (dom (heap (ready c)))) (outcome c).2 !! stage_key Research = Some "R1".
Proof.
  intros c.
  refine (proj1 (proj2 (proj2
            (proj2 (transient_failures_are_retried_up_to_three_attempts
                      (env_with c) flaky_net (manager c) (ready c) _ _
                      (sample_registered c) _ (sample_run c))
                   Research (first_request c) _)))
                1 "R1" _ _ _).
  - reflexivity.
  - vm_compute. reflexivity.
  - unfold DEFAULT_MAX_RETRIES. lia.
  - intros j' Hj'. destruct j' as [|j']; [reflexivity|lia].
  - reflexivity.
Defined.

Lemma stage_waits_for_earlier_outputs_witness :
  exists j out snap',
    j < 4 /\
    new_trace (ready echo_client) (outcome echo_client).2 !! j
      = Some (EvStore Research out, snap') /\
    ({[ "research" := "R1" ]} : dict) !! stage_key Research = Some out.
Proof.
  refine (proj1 (stage_waits_for_earlier_outputs (env_with echo_client) _ _ _ _
                   (sample_registered _) (sample_run _))
                4 (EvRender Analysis ["R1"] (analysis_message "R1"))
                {[ "research" := "R1" ]} Research _ _ _).
  - vm_compute. reflexivity.
  - reflexivity.
  - cbn. lia.
Defined.

(** C4 as stated fails: with a model that answers every call with the
    empty string the run returns, and the mapping has an empty output. *)
Lemma completed_run_with_empty_output :
  exists l, (outcome silent_client).1 = Ok l /\
            ~ all_outputs_nonempty (read_dict l (outcome silent_client).2).
Proof.
  eexists. split; [vm_compute; reflexivity|].
  intros H. destruct (H Research) as (out & Hl & Hne).
  vm_compute in Hl. injection Hl as <-. by apply Hne.
Qed.

Lemma completed_run_outputs_witness :
  let w := ready echo_client in
  let w' := (outcome echo_client).2 in
  let l := fresh (dom (heap w)) in
  length (new_requests w w') = 5 /\
  dom (read_dict l w') = list_to_set (stage_key <$> stages) /\
  forall s, exists r out snap,
    new_requests w w' !! stage_index s = Some r /\
    agents_client (manager echo_client) (length (requests w) + stage_index s) r
      = Completion out /\
    new_trace w w' !! (4 * stage_index s + 2) = Some (EvReply s out, snap) /\
    read_dict l w' !! stage_key s = Some out.
Proof.
  intros w w' l.
  refine (completed_run_outputs (env_with echo_client) (manager echo_client) w l w'
            (sample_registered _) _).
  vm_compute. reflexivity.
Defined.

(** C5 as stated fails: the technical phase is called with the blueprint
    alone, not with the outputs of all three earlier stages. *)
Lemma technical_prompt_misses_research :
  ~ rendered_with_all_earlier (new_trace (ready echo_client) (outcome echo_client).2).
Proof.
  intros H.
  assert (Hl : exists snap,
             new_trace (ready echo_client) (outcome echo_client).2 !! 12
             = Some (EvRender Technical ["B1"] (technical_message "B1"), snap))
    by (vm_compute; eauto).
  destruct Hl as (snap & Hl). apply list_elem_of_lookup_2 in Hl.
  apply H in Hl. discriminate.
Qed.

Lemma render_inputs_are_earlier_outputs_witness :
  let w := ready echo_client in
  let w' := (outcome echo_client).2 in
  let snap : dict :=
    <["blueprint" := "B1"]> (<["analysis" := "A1"]> (<["research" := "R1"]> ∅)) in
  dom snap = list_to_set (stage_key <$> take (stage_index Technical) stages) /\
  (forall s',
     stage_index s' < stage_index Technical ->
     exists j out snap' r,
       j < 12 /\
       new_trace w w' !! j = Some (EvStore s' out, snap') /\
       new_requests w w' !! stage_index s' = Some r /\
       agents_client (manager echo_client) (length (requests w) + stage_index s') r
         = Completion out /\
       snap !! stage_key s' = Some out) /\
  Forall2 (fun s' x => snap !! stage_key s' = Some x) (phase_inputs Technical) ["B1"] /\
  Forall (fun s' => stage_index s' < stage_index Technical) (phase_inputs Technical) /\
  technical_message "B1" = render Technical ["B1"].
Proof.
  intros w w' snap.
  refine (render_inputs_are_earlier_outputs (env_with echo_client) _ _ _ _
            (sample_registered _) (sample_run _)
            12 Technical ["B1"] (technical_message "B1") snap _).
  vm_compute. reflexivity.
Defined.

(** C6 as stated fails: the run halted in the analysis phase, its mapping
    has no analysis output, and [save_outputs] on that mapping writes the
    text [No analysis output]. *)
Lemma save_outputs_writes_placeholder :
  let w := (outcome halting_client).2 in
  let w' := (save_outputs (env_with halting_client) sample_output_manager
                          halted_outputs w).2 in
  (outcome halting_client).1 = Raise (APIError FatalError) /\
  ~ no_replacement_text (read_dict halted_outputs w)
      (default "" (files w' !! output_path sample_output_manager)).
Proof.
  intros w w'. split; [vm_compute; reflexivity|].
  intros H. specialize (H Analysis). vm_compute in H.
  specialize (H eq_refl). discriminate.
Qed.

Lemma failed_run_reporting_witness :
  let env := env_with flaky_client in
  let x := main env initial_world in
  (x.1 = Raise (APIError TransientError) /\
   files x.2 = files initial_world /\
   error_line env (APIError TransientError) ∈ stdout x.2 /\
   length (requests x.2) = 1) /\
  exists w2,
    save_outputs env sample_output_manager halted_outputs initial_world
      = (Ok (output_path sample_output_manager), w2) /\
    files w2 !! output_path sample_output_manager
      = Some (written (report_chunks env (read_dict halted_outputs initial_world))) /\
    forall s,
      match read_dict halted_outputs initial_world !! stage_key s with
      | Some out =>
          (out +:+ nl +:+ nl) ∈ report_chunks env (read_dict halted_outputs initial_world)
      | None =>
          (placeholder s +:+ nl +:+ nl)
            ∈ report_chunks env (read_dict halted_outputs initial_world)
      end.
Proof.
  intros env x. split.
  - refine (proj1 (failed_run_reporting env) initial_world sample_config []
                  "sk-test" "https://api.example/v1" x.1 x.2 0
                  (first_request flaky_client) TransientError _ _ _ _ _ _ _).
    + reflexivity.
    + vm_compute. reflexivity.
    + vm_compute. reflexivity.
    + apply surjective_pairing.
    + apply le_n.
    + vm_compute. reflexivity.
    + reflexivity.
  - refine (proj2 (proj2 (failed_run_reporting env)) sample_output_manager halted_outputs
                  initial_world _).
    reflexivity.
Defined.

Lemma runs_do_not_share_outputs_witness :
  let env := env_with echo_client in
  let m := manager echo_client in
  let w := ready echo_client in
  let wf1 := fresh_workflow m w in
  let x1 := execute_workflow env wf1 (fresh_world w) in
  let wf2 := fresh_workflow m x1.2 in
  let x2 := execute_workflow env wf2 (fresh_world x1.2) in
  outputs wf1 <> outputs wf2 /\
  (forall l, x1.1 = Ok l -> l = outputs wf1) /\
  (forall l, x2.1 = Ok l -> l = outputs wf2) /\
  read_dict (outputs wf1) x2.2 = read_dict (outputs wf1) x1.2 /\
  (forall k v, read_dict (outputs wf2) (dict_setitem (outputs wf1) k v x2.2).2
               = read_dict (outputs wf2) x2.2) /\
  (forall k v, read_dict (outputs wf1) (dict_setitem (outputs wf2) k v x2.2).2
               = read_dict (outputs wf1) x2.2).
Proof.
  intros env m w wf1 x1 wf2 x2.
  refine (runs_do_not_share_outputs env m w wf1 (fresh_world w) x1.1 x1.2
            wf2 (fresh_world x1.2) x2.1 x2.2 (sample_registered _) _ _ _ _).
  - reflexivity.
  - apply surjective_pairing.
  - reflexivity.
  - apply surjective_pairing.
Defined.

Lemma phase_without_agent_raises_witness :
  phase_method (env_with echo_client) (fresh_workflow no_agents initial_world)
               (fun _ => "") Research initial_world
  = (Raise (KeyError "research"),
     World ∅ ([] ++ phase_banner Research) ∅ [] []).
Proof.
  apply (phase_without_agent_raises (env_with echo_client)
           (fresh_workflow no_agents initial_world) (fun _ => "") Research initial_world).
  reflexivity.
Defined.

Lemma rerun_overwrites_outputs_witness :
  let env := env_with echo_client in
  let self := fresh_workflow (manager echo_client) (ready echo_client) in
  let w := fresh_world (ready echo_client) in
  let x1 := execute_workflow env self w in
  let x2 := execute_workflow env self x1.2 in
  outputs self = outputs self /\
  forall s, exists r out,
    requests x2.2 !! (length (requests x1.2) + stage_index s) = Some r /\
    agents_client (agents_manager self) (length (requests x1.2) + stage_index s) r
      = Completion out /\
    read_dict (outputs self) x2.2 !! stage_key s = Some out.
Proof.
  intros env self w x1 x2.
  refine (rerun_overwrites_outputs env self w (outputs self) x1.2 (outputs self) x2.2
            _ _ _ _).
  - intros s. destruct s; vm_compute; eauto.
  - vm_compute. discriminate.
  - vm_compute. reflexivity.
  - vm_compute. reflexivity.
Defined.



Lemma summary_does_not_depend_on_outputs_witness :
  let env := env_with echo_client in
  let self := sample_output_manager in
  let x1 := create_summary env self halted_outputs initial_world in
  let x2 := create_summary env self 1%positive initial_world in
  x1.1 = x2.1 /\
  files x1.2 = files x2.2 /\
  forall p, x1.1 = Ok p ->
            p = summary_path self /\
            files x1.2 !! p = Some (written (summary_chunks env self)).
Proof.
  intros env self x1 x2.
  refine (summary_does_not_depend_on_outputs env self halted_outputs 1%positive
            initial_world initial_world _).
  reflexivity.
Defined.

Lemma main_config_error_witness :
  let env := env_where [] (fun _ => true) in
  let x := main env initial_world in
  x.1 = Raise IndexError /\
  requests x.2 = requests initial_world /\
  files x.2 = files initial_world /\
  error_line env IndexError ∈ stdout x.2.
Proof.
  intros env x.
  refine (main_config_error env initial_world IndexError _ _); reflexivity.
Defined.

Lemma main_success_witness :
  let env := env_with echo_client in
  let x := main env initial_world in
  let om := main_output_manager env in
  true = true /\
  length (requests x.2) = length (requests initial_world) + 5 /\
  exists d,
    files x.2 = <[summary_path om := written (summary_chunks env om)]>
                  (<[output_path om := written (report_chunks env d)]>
                     (files initial_world)) /\
    forall s, exists r out,
      requests x.2 !! (length (requests initial_world) + stage_index s) = Some r /\
      model r = "gpt-4" /\
      OpenAI env "sk-test" "https://api.example/v1"
             (length (requests initial_world) + stage_index s) r = Completion out /\
      d !! stage_key s = Some out /\
      (out +:+ nl +:+ nl) ∈ report_chunks env d.
Proof.
  intros env x om.
  refine (main_success env initial_world sample_config [] "sk-test"
            "https://api.example/v1" "gpt-4" true x.2 _ _ _ _ _ _).
  - reflexivity.
  - reflexivity.
  - vm_compute. reflexivity.
  - vm_compute. reflexivity.
  - vm_compute. reflexivity.
  - vm_compute. reflexivity.
Defined.



End Runs.

(** * Properties of the travel planner *)

Module TravelClaims.

Import Crewai Travel.

(** C3.  Each of the five tool functions returns a fixed text with its
    string arguments put in, in any state of the process, and leaves that
    state as it is: no search is made.  The departure city defaults to
    New York. *)
Theorem tools_are_templates (W : Type) :
  (exists p0 p1 p2, forall destination departure_city (w : W),
      search_flight_prices destination (Some departure_city) w
      = (Ok (p0 +:+ departure_city +:+ p1 +:+ destination +:+ p2), w)) /\
  (forall destination (w : W),
      search_flight_prices destination None w
      = search_flight_prices destination (Some "New York") w) /\
  (exists p0 p1 p2, forall location check_in_date (w : W),
      search_hotel_options location check_in_date w
      = (Ok (p0 +:+ location +:+ p1 +:+ check_in_date +:+ p2), w)) /\
  (exists p0 p1, forall destination (w : W),
      search_local_transportation destination w
      = (Ok (p0 +:+ destination +:+ p1), w)) /\
  (exists p0 p1, forall destination (w : W),
      search_attractions_activities destination w
      = (Ok (p0 +:+ destination +:+ p1), w)) /\
  (exists p0 p1, forall destination (w : W),
      search_travel_costs destination w
      = (Ok (p0 +:+ destination +:+ p1), w)).
Proof.
  split_and!.
  - eexists _, _, _. intros. reflexivity.
  - reflexivity.
  - eexists _, _, _. intros. reflexivity.
  - eexists _, _. intros. reflexivity.
  - eexists _, _. intros. reflexivity.
  - eexists _, _. intros. reflexivity.
Qed.

Lemma hotel_location_cases destination :
  hotel_location destination =
  if String.eqb (lower destination) "iceland" then "Reykjavik"
  else if String.eqb (lower destination) "france" then "Paris"
  else if String.eqb (lower destination) "japan" then "Tokyo"
  else destination.
Proof.
  unfold hotel_location, hotel_cities, assoc.
  by repeat destruct (String.eqb _ _).
Qed.

(** C9.  The goal of the hotel agent and the description and expected
    output of the hotel task are fixed texts around the same city: the city
    that [hotel_cities] gives for the destination in lower case, and the
    destination itself when the table has none. *)
Theorem hotel_agent_and_task_share_location :
  (exists g0 g1 g2 g3 d0 d1 d2 e0 e1,
     forall destination trip_dates,
       let hotel_agent := create_hotel_agent destination trip_dates in
       let hotel_task := create_hotel_task hotel_agent destination trip_dates in
       goal hotel_agent
       = g0 +:+ hotel_location destination +:+ g1 +:+ destination +:+ g2
            +:+ trip_dates +:+ g3 /\
       description hotel_task
       = d0 +:+ trip_dates +:+ d1 +:+ hotel_location destination +:+ d2 /\
       expected_output hotel_task = e0 +:+ hotel_location destination +:+ e1 /\
       agent hotel_task = hotel_agent) /\
  (forall destination,
     hotel_location destination =
     if String.eqb (lower destination) "iceland" then "Reykjavik"
     else if String.eqb (lower destination) "france" then "Paris"
     else if String.eqb (lower destination) "japan" then "Tokyo"
     else destination) /\
  hotel_location "ICELAND" = "Reykjavik" /\
  hotel_location "France" = "Paris" /\
  hotel_location "jaPAN" = "Tokyo" /\
  hotel_location "Peru" = "Peru".
Proof.
  split_and!; [|apply hotel_location_cases|reflexivity..].
  eexists _, _, _, _, _, _, _, _, _. intros destination trip_dates.
  cbv zeta. unfold create_hotel_agent, create_hotel_task.
  cbn [goal description expected_output agent].
  rewrite hotel_location_cases.
  split_and!; reflexivity.
Qed.

(** C10.  The command line is read by position: argument 1 is the
    destination, 2 the duration, 3 the departure city, 4 the dates, 5 the
    number of travelers and 6 the budget preference, every absent one
    keeping its default; a fifth argument that [int] rejects raises
    [ValueError] with the state untouched, whatever [main] is: [main] is not
    called. *)
Theorem command_line_is_positional (W : Type) (int : string -> option Z)
    (main : kwargs -> M W unit) (argv : list string) (w : W) :
  dunder_main int main argv w =
  match argv !! 5 with
  | Some a =>
      match int a with
      | Some n => main (kwargs_of argv n) w
      | None => (Raise (ValueError a), w)
      end
  | None => main (kwargs_of argv 2) w
  end.
Proof.
  unfold dunder_main, int_of, list_getitem, kwargs_of.
  destruct argv as [|a0 [|a1 [|a2 [|a3 [|a4 [|a5 [|a6 rest]]]]]]];
    unfold mbind, M_bind, mret, M_ret, raise; cbn; try reflexivity;
    destruct (int a5); reflexivity.
Qed.

End TravelClaims.

(** * Properties of the travel planner's [main] *)

Module PlannerFacts.

Import Crewai CrewaiMain Planner.

(** Symbolic execution of a [P] computation, one statement at a time: each
    lemma replaces the goal [(c ≫= k) w = R] by the goal for the rest of
    the program in the world that [c] leaves.  The lines printed so far are
    kept as [o ++ acc]. *)
Section Exec.

Context {A : Type} (R : outcome A * world).
Context (o acc er : list string) (en f : gmap string string).
Context (ks : list (gmap string string * Crew * inputs)).

Lemma s_start (m : P A) :
  m (World (o ++ []) er en f ks) = R -> m (World o er en f ks) = R.
Proof. by rewrite app_nil_r. Qed.

Lemma s_print s (k : unit -> P A) :
  k tt (World (o ++ (acc ++ [s])) er en f ks) = R ->
  (print s ≫= k) (World (o ++ acc) er en f ks) = R.
Proof. intros <-. unfold mbind, P_bind, print. cbn. by rewrite app_assoc. Qed.

Lemma s_validate cfg (k : bool -> P A) :
  k (validate_config cfg).2 (World (o ++ (acc ++ (validate_config cfg).1)) er en f ks) = R ->
  (validate_config_call cfg ≫= k) (World (o ++ acc) er en f ks) = R.
Proof. intros <-. unfold mbind, P_bind, validate_config_call. cbn. by rewrite app_assoc. Qed.

Lemma s_summary cfg (k : unit -> P A) :
  k tt (World (o ++ (acc ++ print_summary cfg)) er en f ks) = R ->
  (Config_print_summary cfg ≫= k) (World (o ++ acc) er en f ks) = R.
Proof. intros <-. unfold mbind, P_bind, Config_print_summary. cbn. by rewrite app_assoc. Qed.

Lemma s_traceback cfg e (k : unit -> P A) :
  k tt (World (o ++ acc) (er ++ format_exc cfg e) en f ks) = R ->
  (traceback_print_exc cfg e ≫= k) (World (o ++ acc) er en f ks) = R.
Proof. by intros <-. Qed.

Lemma s_environ a v (k : unit -> P A) :
  k tt (World (o ++ acc) er (<[a := v]> en) f ks) = R ->
  (environ_setitem a v ≫= k) (World (o ++ acc) er en f ks) = R.
Proof. by intros <-. Qed.

Lemma s_environ_if (b : bool) a v (k : unit -> P A) :
  k tt (World (o ++ acc) er (if b then <[a := v]> en else en) f ks) = R ->
  ((if b then environ_setitem a v;; mret tt else mret tt) ≫= k)
    (World (o ++ acc) er en f ks) = R.
Proof. intros <-. by destruct b. Qed.

Lemma s_exit {B} c (k : B -> P A) w : (Exit c, w) = R -> (exit c ≫= k) w = R.
Proof. by intros <-. Qed.

Lemma s_ret {B} (x : B) (k : B -> P A) w : k x w = R -> (mret x ≫= k) w = R.
Proof. by intros <-. Qed.

Lemma s_done (x : A) w : (Done x, w) = R -> (mret x : P A) w = R.
Proof. by intros <-. Qed.

Lemma s_assoc {B C} (a : P B) (g : B -> P C) (k : C -> P A) w :
  (a ≫= λ x, g x ≫= k) w = R -> ((a ≫= g) ≫= k) w = R.
Proof.
  intros <-. unfold mbind, P_bind. by destruct (a w) as [[x|c|e] w1].
Qed.

Lemma s_kickoff_result cfg crew i result (k : string -> P A) :
  kickoff cfg en crew i = inl result ->
  k result (World (o ++ acc) er en f (ks ++ [(en, crew, i)])) = R ->
  (Crew_kickoff cfg crew i ≫= k) (World (o ++ acc) er en f ks) = R.
Proof.
  intros Hk <-. unfold mbind, P_bind, Crew_kickoff.
  cbn [stdout stderr environ files kickoffs]. by rewrite Hk.
Qed.

Lemma s_kickoff_error cfg crew i message (k : string -> P A) :
  kickoff cfg en crew i = inr message ->
  (Raised (CrewError message), World (o ++ acc) er en f (ks ++ [(en, crew, i)])) = R ->
  (Crew_kickoff cfg crew i ≫= k) (World (o ++ acc) er en f ks) = R.
Proof.
  intros Hk <-. unfold mbind, P_bind, Crew_kickoff.
  cbn [stdout stderr environ files kickoffs]. by rewrite Hk.
Qed.

Lemma s_open can path (k : unit -> P A) :
  can path = true ->
  k tt (World (o ++ acc) er en (<[path := ""]> f) ks) = R ->
  (file_open_w can path ≫= k) (World (o ++ acc) er en f ks) = R.
Proof.
  intros Hc <-. unfold mbind, P_bind, file_open_w.
  cbn [stdout stderr environ files kickoffs]. by rewrite Hc.
Qed.

Lemma s_open_error can path (k : unit -> P A) :
  can path = false ->
  (Raised (OpenError path), World (o ++ acc) er en f ks) = R ->
  (file_open_w can path ≫= k) (World (o ++ acc) er en f ks) = R.
Proof.
  intros Hc <-. unfold mbind, P_bind, file_open_w.
  cbn [stdout stderr environ files kickoffs]. by rewrite Hc.
Qed.

Lemma s_write path c chunk (k : unit -> P A) :
  k tt (World (o ++ acc) er en (<[path := c +:+ chunk]> f) ks) = R ->
  (file_write path chunk ≫= k) (World (o ++ acc) er en (<[path := c]> f) ks) = R.
Proof.
  intros <-. unfold mbind, P_bind, file_write.
  cbn [stdout stderr environ files kickoffs].
  by rewrite lookup_insert_eq, insert_insert_eq.
Qed.

Lemma s_try {B} (m : P B) (h : exception -> P B) (k : B -> P A) w r w' :
  m w = (r, w') ->
  match r with
  | Done a => k a w'
  | Exit c => (Exit c, w')
  | Raised e => (h e ≫= k) w'
  end = R ->
  (try_except m h ≫= k) w = R.
Proof.
  intros Hm <-. unfold mbind, P_bind, try_except. rewrite Hm. by destruct r.
Qed.

End Exec.

Ltac step :=
  lazymatch goal with
  | |- ((_ ≫= _) ≫= _) _ = _ => apply s_assoc
  | |- (print _ ≫= _) _ = _ => apply s_print
  | |- (file_write _ _ ≫= _) _ = _ => apply s_write
  | |- (environ_setitem _ _ ≫= _) _ = _ => apply s_environ
  | |- ((if _ then _ else _) ≫= _) _ = _ => apply s_environ_if
  | |- (validate_config_call _ ≫= _) _ = _ => apply s_validate
  | |- (Config_print_summary _ ≫= _) _ = _ => apply s_summary
  | |- (traceback_print_exc _ _ ≫= _) _ = _ => apply s_traceback
  | |- (mret _ ≫= _) _ = _ => apply s_ret
  | |- (exit _ ≫= _) _ = _ => apply s_exit
  | |- mret _ _ = _ => apply s_done
  end;
  cbv beta.

Ltac find_line :=
  repeat first [ by (apply elem_of_app; right; apply list_elem_of_singleton)
               | apply elem_of_app; left ].

Section Main.

Context (cfg : Config).
Context (destination trip_duration trip_dates departure_city : string).
Context (travelers : Z) (budget_preference : string).

Local Abbreviation run :=
  (main cfg destination trip_duration trip_dates departure_city travelers budget_preference).
Local Abbreviation reply :=
  (kickoff_reply cfg destination trip_duration trip_dates departure_city travelers
                 budget_preference).
Local Abbreviation logged :=
  (kickoffs_after cfg destination trip_duration trip_dates departure_city travelers
                  budget_preference).

Ltac prepare :=
  unfold kickoff_reply, kickoffs_after, planned_environ, travel_crew, travel_inputs,
    report_path in *;
  cbv zeta in *; cbn [stdout stderr environ files kickoffs] in *.

Ltac start Hv :=
  apply s_start; unfold main; cbv zeta; repeat step; rewrite Hv; cbn [negb].


Lemma main_crew_failed w message :
  (validate_config cfg).2 = true ->
  reply w = inr message ->
  exists out,
    run w = (Done tt, World (stdout w ++ out)
                            (stderr w ++ format_exc cfg (CrewError message))
                            (planned_environ cfg (environ w)) (files w) (logged w)).
Proof.
  intros Hv Hr. destruct w as [o er en f ks]. eexists.
  prepare. start Hv. repeat step.
  eapply s_try; [eapply s_kickoff_error; [exact Hr|reflexivity]|]. cbv beta iota.
  repeat step. reflexivity.
Qed.

Lemma main_unsaved w result :
  (validate_config cfg).2 = true ->
  reply w = inl result ->
  can_open cfg (report_path cfg destination) = false ->
  exists out,
    run w = (Done tt, World (stdout w ++ out)
                            (stderr w ++
                             format_exc cfg (OpenError (report_path cfg destination)))
                            (planned_environ cfg (environ w)) (files w) (logged w)) /\
    result ∈ out.
Proof.
  intros Hv Hr Hcan. destruct w as [o er en f ks]. eexists.
  prepare. split.
  - start Hv. repeat step.
    eapply s_try.
    { eapply s_kickoff_result; [exact Hr|]. cbv beta. repeat step.
      eapply s_open_error; [exact Hcan|reflexivity]. }
    cbv beta iota. repeat step. reflexivity.
  - find_line.
Qed.

Lemma main_saved :
  exists pre post, forall w result,
    (validate_config cfg).2 = true ->
    reply w = inl result ->
    can_open cfg (report_path cfg destination) = true ->
    exists out,
      run w = (Done tt, World (stdout w ++ out) (stderr w)
                              (planned_environ cfg (environ w))
                              (<[report_path cfg destination := (pre +:+ result) +:+ post]>
                                 (files w))
                              (logged w)) /\
      result ∈ out.
Proof.
  eexists _, _. intros w result Hv Hr Hcan. destruct w as [o er en f ks]. eexists.
  prepare. split.
  - start Hv. repeat step.
    eapply s_try.
    { eapply s_kickoff_result; [exact Hr|]. cbv beta. repeat step.
      eapply s_open; [exact Hcan|]. cbv beta. repeat step. reflexivity. }
    cbv beta iota. repeat step. reflexivity.
  - find_line.
Qed.


Lemma run_logged w :
  (validate_config cfg).2 = true ->
  kickoffs (run w).2 = logged w /\ environ (run w).2 = planned_environ cfg (environ w).
Proof.
  intros Hv. destruct (reply w) as [result|message] eqn:Hr.
  - destruct (can_open cfg (report_path cfg destination)) eqn:Hcan.
    + destruct main_saved as (pre & post & Hsaved).
      destruct (Hsaved w result Hv Hr Hcan) as (out & -> & _). done.
    + destruct (main_unsaved w result Hv Hr Hcan) as (out & -> & _). done.
  - destruct (main_crew_failed w message Hv Hr) as (out & ->). done.
Qed.

(** With a valid configuration, [main] starts the crew exactly once, with
    the key and the base URL of the configuration in the environment,
    whatever it held before.  The crew is sequential, its five agents are
    the flight, hotel, itinerary, transportation and budget agents in that
    order, the task at each position is given to the agent at that
    position, every agent has one tool of its own and none may delegate, and
    the inputs are the six arguments of [main]. *)
Theorem planner_runs_one_sequential_crew w :
  (validate_config cfg).2 = true ->
  exists en crew i,
    kickoffs (run w).2 = kickoffs w ++ [(en, crew, i)] /\
    environ (run w).2 = en /\
    en !! "OPENAI_API_KEY" = Some (API_KEY cfg) /\
    en !! "OPENAI_API_BASE" = Some (API_BASE cfg) /\
    (forall k, k <> "OPENAI_API_KEY" -> k <> "OPENAI_API_BASE" ->
               k <> "OPENAI_MODEL_NAME" -> en !! k = environ w !! k) /\
    process crew = "sequential" /\
    agents crew = [ create_flight_agent destination trip_dates;
                    create_hotel_agent destination trip_dates;
                    create_itinerary_agent destination trip_duration;
                    create_transportation_agent destination;
                    create_budget_agent destination ] /\
    agent <$> tasks crew = agents crew /\
    tools <$> agents crew = [ ["search_flight_prices"]; ["search_hotel_options"];
                              ["search_attractions_activities"];
                              ["search_local_transportation"];
                              ["search_travel_costs"] ] /\
    Forall (fun a => allow_delegation a = false) (agents crew) /\
    i = travel_inputs destination trip_duration trip_dates departure_city travelers
                      budget_preference.
Proof.
  intros Hv. destruct (run_logged w Hv) as [Hk He].
  exists (planned_environ cfg (environ w)),
         (travel_crew destination trip_duration trip_dates departure_city),
         (travel_inputs destination trip_duration trip_dates departure_city travelers
                        budget_preference).
  split_and!; [exact Hk|exact He|clear Hk He..].
  - unfold planned_environ. cbv zeta. destruct (USE_GROQ cfg); by simplify_map_eq.
  - unfold planned_environ. cbv zeta. destruct (USE_GROQ cfg); by simplify_map_eq.
  - intros k H1 H2 H3. unfold planned_environ. cbv zeta.
    destruct (USE_GROQ cfg); by simplify_map_eq.
  - reflexivity.
  - reflexivity.
  - reflexivity.
  - reflexivity.
  - unfold travel_crew. cbv zeta. cbn [agents].
    repeat (apply Forall_cons_2; [reflexivity|]). apply Forall_nil_2.
  - reflexivity.
Qed.



End Main.

End PlannerFacts.

(** * Sample runs of the travel planner *)

Module PlannerRuns.

Import Crewai CrewaiMain Planner PlannerFacts.

(** A configuration that validates, with a crew that gives [reply] and a
    report file that can be opened or not. *)
Definition sample_planner (reply : string + string) (openable : bool) : Config :=
  {| validate_config := (["Configuration validated"], true);
     API_KEY := "sk-test";
     API_BASE := "https://api.example/v1";
     USE_GROQ := false;
     OPENAI_MODEL := "gpt-4";
     print_summary := ["Configuration summary"];
     kickoff := fun _ _ _ => reply;
     now := "2026-01-01 00:00:00";
     script_dir_div := fun name => "crewai/" +:+ name;
     can_open := fun _ => openable;
     str_exception := fun _ => "error";
     format_exc := fun _ => ["Traceback (most recent call last):"] |}.

Definition empty_world : world := World [] [] ∅ ∅ [].

Definition iceland (cfg : Config) : P unit :=
  main cfg "Iceland" "5 days" "January 15-20, 2026" "New York" 2 "mid-range".

Lemma planner_runs_one_sequential_crew_witness :
  let cfg := sample_planner (inl "Plan") true in
  exists en crew i,
    kickoffs (iceland cfg empty_world).2 = kickoffs empty_world ++ [(en, crew, i)] /\
    environ (iceland cfg empty_world).2 = en /\
    en !! "OPENAI_API_KEY" = Some (API_KEY cfg) /\
    en !! "OPENAI_API_BASE" = Some (API_BASE cfg) /\
    (forall k, k <> "OPENAI_API_KEY" -> k <> "OPENAI_API_BASE" ->
               k <> "OPENAI_MODEL_NAME" -> en !! k = environ empty_world !! k) /\
    process crew = "sequential" /\
    agents crew = [ create_flight_agent "Iceland" "January 15-20, 2026";
                    create_hotel_agent "Iceland" "January 15-20, 2026";
                    create_itinerary_agent "Iceland" "5 days";
                    create_transportation_agent "Iceland";
                    create_budget_agent "Iceland" ] /\
    agent <$> tasks crew = agents crew /\
    tools <$> agents crew = [ ["search_flight_prices"]; ["search_hotel_options"];
                              ["search_attractions_activities"];
                              ["search_local_transportation"];
                              ["search_travel_costs"] ] /\
    Forall (fun a => allow_delegation a = false) (agents crew) /\
    i = travel_inputs "Iceland" "5 days" "January 15-20, 2026" "New York" 2 "mid-range".
Proof.
  intros cfg.
  apply (planner_runs_one_sequential_crew cfg "Iceland" "5 days" "January 15-20, 2026"
           "New York" 2 "mid-range" empty_world).
  reflexivity.
Defined.


End PlannerRuns.
